(** * The provider-dispatch relay of LLM-Playground

    A shallow embedding of the chat relay ([app/api/chat/route.ts]) in its
    three revisions: the first one (OpenAI only), the one that branches inline
    on the model name, and the one built on the Strategy Pattern
    ([LLMProvider], [LLMProviderFactory]).

    The relay is TypeScript, and its [ChatRequest] type is erased at run time:
    the handler works on whatever [request.json()] produced.  The embedding is
    therefore written over JavaScript values, and the typed [ChatRequest] is a
    record that is encoded into such a value.

    A JavaScript string is a [string]: one [ascii] for each of its code units,
    which are taken below 256. *)

From Stdlib Require Import String Ascii List Bool Arith NArith Lia.
From Stdlib Require Import DecimalString.
Import ListNotations.
Open Scope string_scope.

(** * JavaScript values *)

(** The relay never computes with a number taken from a payload: it tests it
    for truthiness, prints it and forwards it.  A number is represented by its
    canonical rendering, the result of [Number::toString]: ["0.5"], ["100"],
    ["1e+21"], ["NaN"]. *)
Record Number : Set := num { Number_toString : string }.

(** The values [JSON.parse] produces, and [undefined].  The fields of an object
    are listed in property order. *)
#[local] Set Warnings "-register-all".
Inductive JSValue : Set :=
| JUndefined
| JNull
| JBool (b : bool)
| JNum (n : Number)
| JStr (s : string)
| JArr (elements : list JSValue)
| JObj (fields : list (string * JSValue)).
#[local] Set Warnings "register-all".

Inductive JSError : Set :=
| TypeError
| RangeError
| SyntaxError
| Error (message : string).

(** The outcome of evaluating an expression: a value, or a thrown error. *)
Inductive Completion (A : Type) : Type :=
| Normal (a : A)
| Throw (e : JSError).
Arguments Normal {A} a.
Arguments Throw {A} e.

Definition Completion_bind {A B} (c : Completion A) (k : A -> Completion B) : Completion B :=
  match c with
  | Normal a => k a
  | Throw e => Throw e
  end.

Declare Scope completion_scope.
Delimit Scope completion_scope with completion.
Notation "x <- c ;; k" := (Completion_bind c (fun x => k))
  (at level 61, c at next level, right associativity) : completion_scope.

Module JS.

(** [ToBoolean]: what [!v], [v || w] and [v && w] test. *)
Definition ToBoolean (v : JSValue) : bool :=
  match v with
  | JUndefined | JNull => false
  | JBool b => b
  | JNum n => negb (Number_toString n =? "0") && negb (Number_toString n =? "NaN")
  | JStr s => negb (s =? "")
  | JArr _ | JObj _ => true
  end.

(** [v || w]. *)
Definition or_else (v w : JSValue) : JSValue := if ToBoolean v then v else w.

Fixpoint lookup (name : string) (fields : list (string * JSValue)) : JSValue :=
  match fields with
  | [] => JUndefined
  | (k, x) :: rest => if k =? name then x else lookup name rest
  end.

Fixpoint has_property (name : string) (fields : list (string * JSValue)) : bool :=
  match fields with
  | [] => false
  | (k, _) :: rest => (k =? name) || has_property name rest
  end.

(** [ToString], as a template literal applies it.  An array is joined with
    commas, its [null] and [undefined] elements printing as nothing.  An
    object prints through [Object.prototype.toString], unless a property
    [toString] of its own hides that method: no value of a parsed payload can
    be called, and the conversion then ends in a [TypeError]. *)
Fixpoint ToString (v : JSValue) : Completion string :=
  match v with
  | JUndefined => Normal "undefined"
  | JNull => Normal "null"
  | JBool true => Normal "true"
  | JBool false => Normal "false"
  | JNum n => Normal (Number_toString n)
  | JStr s => Normal s
  | JArr l =>
      (parts <- (fix elements (l : list JSValue) : Completion (list string) :=
                   match l with
                   | [] => Normal []
                   | x :: rest =>
                       part <- match x with
                               | JUndefined | JNull => Normal ""
                               | _ => ToString x
                               end ;;
                       parts <- elements rest ;;
                       Normal (part :: parts)
                   end) l ;;
       Normal (String.concat "," parts))%completion
  | JObj fields =>
      if has_property "toString" fields then Throw TypeError
      else Normal "[object Object]"
  end.

(** The decimal rendering of an integer such as an HTTP status. *)
Definition N_toString (n : N) : string := NilEmpty.string_of_uint (N.to_uint n).

(** The property read [v.name].  The relay reads only [apiKey], [model],
    [messages], [temperature], [max_completion_tokens], [response_format],
    [role], [content] and [error]: none of them is inherited by an object, or
    is a property of a string, a number, a boolean or an array, where the read
    gives [undefined]. *)
Definition Get (v : JSValue) (name : string) : Completion JSValue :=
  match v with
  | JUndefined | JNull => Throw TypeError
  | JObj fields => Normal (lookup name fields)
  | _ => Normal JUndefined
  end.

(** [v?.name]. *)
Definition OptionalGet (v : JSValue) (name : string) : Completion JSValue :=
  match v with
  | JUndefined | JNull => Normal JUndefined
  | _ => Get v name
  end.

(** [v === 'literal']. *)
Definition strict_equals_string (v : JSValue) (literal : string) : bool :=
  match v with
  | JStr s => s =? literal
  | _ => false
  end.

(** [v === undefined]. *)
Definition is_undefined (v : JSValue) : bool :=
  match v with
  | JUndefined => true
  | _ => false
  end.

(** [v.startsWith(searchString)]: a method of strings only. *)
Definition startsWith (v : JSValue) (searchString : string) : Completion bool :=
  match v with
  | JStr s => Normal (String.prefix searchString s)
  | _ => Throw TypeError
  end.

(** [s.includes(searchString)]. *)
Fixpoint includes (s searchString : string) : bool :=
  String.prefix searchString s ||
  match s with
  | EmptyString => false
  | String _ rest => includes rest searchString
  end.

(** [s.substring(0, n)]. *)
Definition substring0 (n : nat) (s : string) : string := String.substring 0 n s.

(** [Array.prototype.find] with a callback that may throw. *)
Fixpoint find {A} (callback : A -> Completion bool) (l : list A) : Completion (option A) :=
  match l with
  | [] => Normal None
  | x :: rest =>
      match callback x with
      | Normal true => Normal (Some x)
      | Normal false => find callback rest
      | Throw e => Throw e
      end
  end.

(** [Array.prototype.filter] with a callback that may throw. *)
Fixpoint filter {A} (callback : A -> Completion bool) (l : list A) : Completion (list A) :=
  match l with
  | [] => Normal []
  | x :: rest =>
      match callback x with
      | Normal keep =>
          match filter callback rest with
          | Normal kept => Normal (if keep then x :: kept else kept)
          | Throw e => Throw e
          end
      | Throw e => Throw e
      end
  end.

(** [v.filter(callback)] and [v.find(callback)] on a value read from the
    payload: only an array has the methods. *)
Definition call_filter (v : JSValue) (callback : JSValue -> Completion bool) : Completion JSValue :=
  match v with
  | JArr l =>
      match filter callback l with
      | Normal kept => Normal (JArr kept)
      | Throw e => Throw e
      end
  | _ => Throw TypeError
  end.

Definition call_find (v : JSValue) (callback : JSValue -> Completion bool) : Completion JSValue :=
  match v with
  | JArr l =>
      match find callback l with
      | Normal (Some x) => Normal x
      | Normal None => Normal JUndefined
      | Throw e => Throw e
      end
  | _ => Throw TypeError
  end.

End JS.

(** * JSON text *)

Module JSON.

Definition dquote : ascii := "034"%char.

Definition hex_digit (n : nat) : ascii :=
  nth n (list_ascii_of_string "0123456789abcdef") "0"%char.

(** [QuoteJSONString], one code unit at a time: the quote, the backslash and
    the control characters are escaped, everything else is copied. *)
Definition QuoteJSONChar (c : ascii) : string :=
  let n := nat_of_ascii c in
  if (n =? 34)%nat then String "\" (String dquote "")
  else if (n =? 92)%nat then "\\"
  else if (n =? 8)%nat then "\b"
  else if (n =? 12)%nat then "\f"
  else if (n =? 10)%nat then "\n"
  else if (n =? 13)%nat then "\r"
  else if (n =? 9)%nat then "\t"
  else if (n <? 32)%nat then
    "\u00" ++ String (hex_digit (n / 16)%nat) (String (hex_digit (n mod 16)%nat) "")
  else String c "".

Fixpoint QuoteJSONChars (s : string) : string :=
  match s with
  | EmptyString => ""
  | String c rest => QuoteJSONChar c ++ QuoteJSONChars rest
  end.

Definition QuoteJSONString (s : string) : string :=
  String dquote (QuoteJSONChars s ++ String dquote "").

(** A number that is not finite is printed as [null]. *)
Definition SerializeJSONNumber (n : Number) : string :=
  let s := Number_toString n in
  if (s =? "NaN") || (s =? "Infinity") || (s =? "-Infinity") then "null" else s.

(** The text [JSON.stringify] gives for a value other than [undefined].  Inside
    an array [undefined] is printed as [null]; a property whose value is
    [undefined] is left out. *)
Fixpoint text (v : JSValue) : string :=
  match v with
  | JUndefined | JNull => "null"
  | JBool true => "true"
  | JBool false => "false"
  | JNum n => SerializeJSONNumber n
  | JStr s => QuoteJSONString s
  | JArr l => "[" ++ String.concat "," (map text l) ++ "]"
  | JObj fields =>
      "{" ++ String.concat ","
               (flat_map (fun kv =>
                            match kv with
                            | (_, JUndefined) => []
                            | (k, x) => [QuoteJSONString k ++ ":" ++ text x]
                            end) fields) ++ "}"
  end.

(** [JSON.stringify(v)]: a string, or [undefined] for [undefined]. *)
Definition stringify (v : JSValue) : JSValue :=
  match v with
  | JUndefined => JUndefined
  | _ => JStr (text v)
  end.

End JSON.

(** * The HTTP boundary *)

(** The text of an upstream body, together with what [JSON.parse] makes of it
    ([None] when it throws a [SyntaxError]). *)
Record BodyText : Set := {
  chars : string;
  json : option JSValue
}.

(** [JSON.parse(responseText)]. *)
Definition JSON_parse (responseText : BodyText) : Completion JSValue :=
  match json responseText with
  | Some v => Normal v
  | None => Throw SyntaxError
  end.

(** The [Response] that [fetch] resolves to.  Reading the body may fail. *)
Record Response : Set := {
  status : N;
  statusText : string;
  body : Completion BodyText
}.

(** [response.ok]: the status is in the range 200-299. *)
Definition ok (response : Response) : bool :=
  (200 <=? status response)%N && (status response <=? 299)%N.

(** [response.text()]. *)
Definition Response_text (response : Response) : Completion BodyText := body response.

(** [response.json()]: the body is read and parsed. *)
Definition Response_json (response : Response) : Completion JSValue :=
  (responseText <- Response_text response ;; JSON_parse responseText)%completion.

(** The two arguments of a call of [fetch]. *)
Record FetchCall : Set := {
  url : string;
  init : JSValue
}.

(** The network: what each outbound call is answered with.  A call that does
    not complete is a rejected promise. *)
Definition Network : Type := FetchCall -> Completion Response.

(** The inbound request: [request.json()] gives the parsed payload, or throws
    when the payload is not JSON. *)
Record NextRequest : Set := {
  request_json : Completion JSValue
}.

(** The relay's answer: [NextResponse.json(data, { status })]. *)
Record NextResponse : Set := {
  response_status : N;
  response_body : string
}.

(** * Asynchronous code: outbound calls and exceptions *)

(** An [async] computation runs against the network, and ends with the calls
    it made and a completion. *)
Definition Async (A : Type) : Type := Network -> list FetchCall * Completion A.

Definition lift {A} (c : Completion A) : Async A := fun _ => ([], c).

Definition bind {A B} (m : Async A) (k : A -> Async B) : Async B :=
  fun net =>
    match m net with
    | (calls, Normal a) => let (calls', r) := k a net in ((calls ++ calls')%list, r)
    | (calls, Throw e) => (calls, Throw e)
    end.

(** [try { m } catch (e) { handler e }]. *)
Definition try_catch {A} (m : Async A) (handler : JSError -> Async A) : Async A :=
  fun net =>
    match m net with
    | (calls, Normal a) => (calls, Normal a)
    | (calls, Throw e) => let (calls', r) := handler e net in ((calls ++ calls')%list, r)
    end.

(** [fetch(url, init)]. *)
Definition fetch (url : string) (init : JSValue) : Async Response :=
  fun net => let call := {| url := url; init := init |} in ([call], net call).

Declare Scope async_scope.
Delimit Scope async_scope with async.
Notation "x <- m ;; k" := (bind m (fun x => k))
  (at level 61, m at next level, right associativity) : async_scope.

(** The statuses of a response that has no body. *)
Definition null_body_status (status : N) : bool :=
  ((status =? 101) || (status =? 103) || (status =? 204) || (status =? 205)
   || (status =? 304))%N.

(** [NextResponse.json(data, { status })] is [Response.json]: the body is
    [JSON.stringify(data)], and a value that has no JSON text is refused; so
    is, as the Fetch standard initialises a response, a status outside
    200-599, and a body together with a status that allows none. *)
Definition NextResponse_json (data : JSValue) (status : N) : Completion NextResponse :=
  match JSON.stringify data with
  | JStr s =>
      if ((status <? 200) || (599 <? status))%N then Throw RangeError
      else if null_body_status status then Throw TypeError
      else Normal {| response_status := status; response_body := s |}
  | _ => Throw TypeError
  end.

(** [try { c } catch { handler }] around code that makes no outbound call. *)
Definition catch {A} (c : Completion A) (handler : JSError -> Completion A) : Completion A :=
  match c with
  | Normal a => Normal a
  | Throw e => handler e
  end.

(** [{ error: { message } }]. *)
Definition error_message (message : string) : JSValue :=
  JObj [("error", JObj [("message", JStr message)])].

(** The template literal [`HTTP ${response.status}: ${response.statusText}`]. *)
Definition status_line (response : Response) : string :=
  "HTTP " ++ JS.N_toString (status response) ++ ": " ++ statusText response.

(** The callbacks [msg => msg.role === 'user'] and [msg => msg.role === 'system']. *)
Definition role_is (name : string) (msg : JSValue) : Completion bool :=
  (role <- JS.Get msg "role" ;; Normal (JS.strict_equals_string role name))%completion.

(** The spread [...(request.response_format && { response_format:
    request.response_format })]: a falsy operand spreads to nothing. *)
Definition spread_response_format (response_format : JSValue) : list (string * JSValue) :=
  if JS.ToBoolean response_format then [("response_format", response_format)] else [].

(** * The relay on the Strategy Pattern (the latest revision of [route.ts]) *)

Module Strategy.

(** [abstract class LLMProvider]. *)
Record LLMProvider : Type := {
  canHandle : JSValue -> Completion bool;
  makeRequest : JSValue -> Async Response
}.

Module ClaudeProvider.

Definition canHandle (model : JSValue) : Completion bool :=
  JS.startsWith model "claude-".

Definition requestBody (request : JSValue) : Completion JSValue :=
  (model <- JS.Get request "model" ;;
   max_tokens <- JS.Get request "max_completion_tokens" ;;
   temperature <- JS.Get request "temperature" ;;
   messages <- JS.Get request "messages" ;;
   user_messages <- JS.call_filter messages (role_is "user") ;;
   messages' <- JS.Get request "messages" ;;
   found <- JS.call_find messages' (role_is "system") ;;
   content <- JS.OptionalGet found "content" ;;
   Normal (JObj [("model", model);
                 ("max_tokens", max_tokens);
                 ("temperature", temperature);
                 ("messages", user_messages);
                 ("system", JS.or_else content (JStr "You are a helpful assistant."))]))%completion.

Definition makeRequest (request : JSValue) : Async Response :=
  (requestBody <- lift (requestBody request) ;;
   apiKey <- lift (JS.Get request "apiKey") ;;
   fetch "https://api.anthropic.com/v1/messages"
     (JObj [("method", JStr "POST");
            ("headers", JObj [("Content-Type", JStr "application/json");
                              ("x-api-key", apiKey);
                              ("anthropic-version", JStr "2023-06-01")]);
            ("body", JSON.stringify requestBody)]))%async.

End ClaudeProvider.

Module DeepseekProvider.

Definition canHandle (model : JSValue) : Completion bool :=
  JS.startsWith model "deepseek-".

Definition requestBody (request : JSValue) : Completion JSValue :=
  (model <- JS.Get request "model" ;;
   messages <- JS.Get request "messages" ;;
   temperature <- JS.Get request "temperature" ;;
   max_tokens <- JS.Get request "max_completion_tokens" ;;
   response_format <- JS.Get request "response_format" ;;
   Normal (JObj ([("model", model);
                  ("messages", messages);
                  ("temperature", temperature);
                  ("max_tokens", max_tokens)]
                 ++ spread_response_format response_format)))%completion.

Definition makeRequest (request : JSValue) : Async Response :=
  (requestBody <- lift (requestBody request) ;;
   apiKey <- lift (JS.Get request "apiKey") ;;
   apiKey <- lift (JS.ToString apiKey) ;;
   fetch "https://api.deepseek.com/chat/completions"
     (JObj [("method", JStr "POST");
            ("headers", JObj [("Content-Type", JStr "application/json");
                              ("Accept", JStr "application/json");
                              ("Authorization", JStr ("Bearer " ++ apiKey))]);
            ("body", JSON.stringify requestBody)]))%async.

End DeepseekProvider.

Module OpenAIProvider.

(** The fallback provider: it handles every model. *)
Definition canHandle (_model : JSValue) : Completion bool := Normal true.

Definition requestBody (request : JSValue) : Completion JSValue :=
  (model <- JS.Get request "model" ;;
   messages <- JS.Get request "messages" ;;
   temperature <- JS.Get request "temperature" ;;
   max_completion_tokens <- JS.Get request "max_completion_tokens" ;;
   response_format <- JS.Get request "response_format" ;;
   Normal (JObj ([("model", model);
                  ("messages", messages);
                  ("temperature", temperature);
                  ("max_completion_tokens", max_completion_tokens)]
                 ++ spread_response_format response_format)))%completion.

Definition makeRequest (request : JSValue) : Async Response :=
  (requestBody <- lift (requestBody request) ;;
   apiKey <- lift (JS.Get request "apiKey") ;;
   apiKey <- lift (JS.ToString apiKey) ;;
   fetch "https://api.openai.com/v1/chat/completions"
     (JObj [("method", JStr "POST");
            ("headers", JObj [("Content-Type", JStr "application/json");
                              ("Authorization", JStr ("Bearer " ++ apiKey))]);
            ("body", JSON.stringify requestBody)]))%async.

End OpenAIProvider.

(** [new ClaudeProvider()], [new DeepseekProvider()], [new OpenAIProvider()]. *)
Definition Claude : LLMProvider :=
  {| canHandle := ClaudeProvider.canHandle; makeRequest := ClaudeProvider.makeRequest |}.

Definition Deepseek : LLMProvider :=
  {| canHandle := DeepseekProvider.canHandle; makeRequest := DeepseekProvider.makeRequest |}.

Definition OpenAI : LLMProvider :=
  {| canHandle := OpenAIProvider.canHandle; makeRequest := OpenAIProvider.makeRequest |}.

Module LLMProviderFactory.

(** The static field [providers], as it is initialised. *)
Definition providers : list LLMProvider := [Claude; Deepseek; OpenAI].

(** [throw new Error(`No provider found for model: ${model}`)]. *)
Definition NoProviderFound {A} (model : JSValue) : Completion A :=
  (model <- JS.ToString model ;;
   Throw (Error ("No provider found for model: " ++ model)))%completion.

(** [getProvider], reading the current value [registry] of the static field. *)
Definition getProvider (registry : list LLMProvider) (model : JSValue) : Completion LLMProvider :=
  (provider <- JS.find (fun p => canHandle p model) registry ;;
   match provider with
   | None => NoProviderFound model
   | Some p => Normal p
   end)%completion.

(** [registerProvider]: [this.providers.splice(-1, 0, provider)] inserts at the
    index [length - 1], or at 0 in an empty array. *)
Definition registerProvider (registry : list LLMProvider) (provider : LLMProvider) : list LLMProvider :=
  let start := (List.length registry - 1)%nat in
  (firstn start registry ++ provider :: skipn start registry)%list.

End LLMProviderFactory.

(** [!body.apiKey || !body.model || !body.messages || body.temperature ===
    undefined || body.max_completion_tokens === undefined]. *)
Definition missing_required_fields (body : JSValue) : Completion bool :=
  (apiKey <- JS.Get body "apiKey" ;;
   if negb (JS.ToBoolean apiKey) then Normal true else
   model <- JS.Get body "model" ;;
   if negb (JS.ToBoolean model) then Normal true else
   messages <- JS.Get body "messages" ;;
   if negb (JS.ToBoolean messages) then Normal true else
   temperature <- JS.Get body "temperature" ;;
   if JS.is_undefined temperature then Normal true else
   max_completion_tokens <- JS.Get body "max_completion_tokens" ;;
   Normal (JS.is_undefined max_completion_tokens))%completion.

(** The branch [if (!response.ok) { ... }]: the error body is read as text and
    parsed; a body that is not JSON, or that cannot be read, is replaced by an
    error object made from the status line. *)
Definition errorData (response : Response) : Completion JSValue :=
  catch
    (responseText <- Response_text response ;;
     catch (JSON_parse responseText)
       (fun _ =>
          Normal (JObj [("error",
                   JObj [("message", JStr (status_line response));
                         ("details",
                          JStr (if JS.includes (chars responseText) "<!DOCTYPE"
                                then "Received HTML error page instead of JSON"
                                else JS.substring0 200 (chars responseText)))])])))%completion
    (fun _textError => Normal (error_message (status_line response))).

Definition relay_error (response : Response) : Completion NextResponse :=
  (errorData <- errorData response ;;
   error <- JS.Get errorData "error" ;;
   NextResponse_json
     (JObj [("error", JS.or_else error (JObj [("message", JStr (status_line response))]))])
     (status response))%completion.

(** The rest of the handler: the successful body is read as text and parsed,
    and a failure there is answered with 502. *)
Definition relay_success (response : Response) : Completion NextResponse :=
  match (responseText <- Response_text response ;; JSON_parse responseText)%completion with
  | Normal data => NextResponse_json data 200
  | Throw _parseError =>
      NextResponse_json (error_message "Invalid JSON response from LLM provider") 502
  end.

(** The handler, reading the providers from [registry]. *)
Definition POST_with (registry : list LLMProvider) (request : NextRequest) : Async NextResponse :=
  try_catch
    (body <- lift (request_json request) ;;
     missing <- lift (missing_required_fields body) ;;
     if missing then
       lift (NextResponse_json (error_message "Missing required fields") 400)
     else
       model <- lift (JS.Get body "model") ;;
       provider <- lift (LLMProviderFactory.getProvider registry model) ;;
       response <- makeRequest provider body ;;
       if negb (ok response) then lift (relay_error response)
       else lift (relay_success response))%async
    (fun _error => lift (NextResponse_json (error_message "Internal server error") 500)).

(** [export async function POST]: nothing calls [registerProvider], so the
    handler runs on the initial providers. *)
Definition POST (request : NextRequest) : Async NextResponse :=
  POST_with LLMProviderFactory.providers request.

End Strategy.

(** * The relay that branches inline on the model name (the revision before) *)

Module Inline.

Definition isClaudeModel (model : JSValue) : Completion bool :=
  JS.startsWith model "claude-".

Definition isDeepseekModel (model : JSValue) : Completion bool :=
  JS.startsWith model "deepseek-".

Definition missing_required_fields (body : JSValue) : Completion bool :=
  (apiKey <- JS.Get body "apiKey" ;;
   if negb (JS.ToBoolean apiKey) then Normal true else
   model <- JS.Get body "model" ;;
   if negb (JS.ToBoolean model) then Normal true else
   messages <- JS.Get body "messages" ;;
   if negb (JS.ToBoolean messages) then Normal true else
   temperature <- JS.Get body "temperature" ;;
   if JS.is_undefined temperature then Normal true else
   max_completion_tokens <- JS.Get body "max_completion_tokens" ;;
   Normal (JS.is_undefined max_completion_tokens))%completion.

Definition claudeRequestBody (body : JSValue) : Completion JSValue :=
  (model <- JS.Get body "model" ;;
   max_tokens <- JS.Get body "max_completion_tokens" ;;
   temperature <- JS.Get body "temperature" ;;
   messages <- JS.Get body "messages" ;;
   user_messages <- JS.call_filter messages (role_is "user") ;;
   messages' <- JS.Get body "messages" ;;
   found <- JS.call_find messages' (role_is "system") ;;
   content <- JS.OptionalGet found "content" ;;
   Normal (JObj [("model", model);
                 ("max_tokens", max_tokens);
                 ("temperature", temperature);
                 ("messages", user_messages);
                 ("system", JS.or_else content (JStr "You are a helpful assistant."))]))%completion.

Definition deepseekRequestBody (body : JSValue) : Completion JSValue :=
  (model <- JS.Get body "model" ;;
   messages <- JS.Get body "messages" ;;
   temperature <- JS.Get body "temperature" ;;
   max_tokens <- JS.Get body "max_completion_tokens" ;;
   response_format <- JS.Get body "response_format" ;;
   Normal (JObj ([("model", model);
                  ("messages", messages);
                  ("temperature", temperature);
                  ("max_tokens", max_tokens)]
                 ++ spread_response_format response_format)))%completion.

Definition openAIRequestBody (body : JSValue) : Completion JSValue :=
  (model <- JS.Get body "model" ;;
   messages <- JS.Get body "messages" ;;
   temperature <- JS.Get body "temperature" ;;
   max_completion_tokens <- JS.Get body "max_completion_tokens" ;;
   response_format <- JS.Get body "response_format" ;;
   Normal (JObj ([("model", model);
                  ("messages", messages);
                  ("temperature", temperature);
                  ("max_completion_tokens", max_completion_tokens)]
                 ++ spread_response_format response_format)))%completion.

(** The chain [if (isClaudeModel(body.model)) ... else if
    (isDeepseekModel(body.model)) ... else ...], each branch ending in its
    [fetch]. *)
Definition call_provider (body : JSValue) : Async Response :=
  (model <- lift (JS.Get body "model") ;;
   claude <- lift (isClaudeModel model) ;;
   if claude then
     claudeRequestBody <- lift (claudeRequestBody body) ;;
     apiKey <- lift (JS.Get body "apiKey") ;;
     fetch "https://api.anthropic.com/v1/messages"
       (JObj [("method", JStr "POST");
              ("headers", JObj [("Content-Type", JStr "application/json");
                                ("x-api-key", apiKey);
                                ("anthropic-version", JStr "2023-06-01")]);
              ("body", JSON.stringify claudeRequestBody)])
   else
     model' <- lift (JS.Get body "model") ;;
     deepseek <- lift (isDeepseekModel model') ;;
     if deepseek then
       deepseekRequestBody <- lift (deepseekRequestBody body) ;;
       apiKey <- lift (JS.Get body "apiKey") ;;
       apiKey <- lift (JS.ToString apiKey) ;;
       fetch "https://api.deepseek.com/chat/completions"
         (JObj [("method", JStr "POST");
                ("headers", JObj [("Content-Type", JStr "application/json");
                                  ("Accept", JStr "application/json");
                                  ("Authorization", JStr ("Bearer " ++ apiKey))]);
                ("body", JSON.stringify deepseekRequestBody)])
     else
       openAIRequestBody <- lift (openAIRequestBody body) ;;
       apiKey <- lift (JS.Get body "apiKey") ;;
       apiKey <- lift (JS.ToString apiKey) ;;
       fetch "https://api.openai.com/v1/chat/completions"
         (JObj [("method", JStr "POST");
                ("headers", JObj [("Content-Type", JStr "application/json");
                                  ("Authorization", JStr ("Bearer " ++ apiKey))]);
                ("body", JSON.stringify openAIRequestBody)]))%async.

(** [if (!response.ok) { const errorData = await response.json(); ... }]. *)
Definition relay_error (response : Response) : Completion NextResponse :=
  (errorData <- Response_json response ;;
   error <- JS.Get errorData "error" ;;
   NextResponse_json
     (JObj [("error", JS.or_else error (JObj [("message", JStr (status_line response))]))])
     (status response))%completion.

(** [const data = await response.json(); return NextResponse.json(data);]. *)
Definition relay_success (response : Response) : Completion NextResponse :=
  (data <- Response_json response ;; NextResponse_json data 200)%completion.

Definition POST (request : NextRequest) : Async NextResponse :=
  try_catch
    (body <- lift (request_json request) ;;
     missing <- lift (missing_required_fields body) ;;
     if missing then
       lift (NextResponse_json (error_message "Missing required fields") 400)
     else
       response <- call_provider body ;;
       if negb (ok response) then lift (relay_error response)
       else lift (relay_success response))%async
    (fun _error => lift (NextResponse_json (error_message "Internal server error") 500)).

End Inline.

(** * The first relay, for OpenAI only ([src/app/api/chat/route.ts]) *)

Module OpenAIOnly.

(** [!body.apiKey || !body.model || !body.messages || body.temperature ===
    undefined]: this revision has no [max_completion_tokens]. *)
Definition missing_required_fields (body : JSValue) : Completion bool :=
  (apiKey <- JS.Get body "apiKey" ;;
   if negb (JS.ToBoolean apiKey) then Normal true else
   model <- JS.Get body "model" ;;
   if negb (JS.ToBoolean model) then Normal true else
   messages <- JS.Get body "messages" ;;
   if negb (JS.ToBoolean messages) then Normal true else
   temperature <- JS.Get body "temperature" ;;
   Normal (JS.is_undefined temperature))%completion.

Definition POST (request : NextRequest) : Async NextResponse :=
  try_catch
    (body <- lift (request_json request) ;;
     missing <- lift (missing_required_fields body) ;;
     if missing then
       lift (NextResponse_json (error_message "Missing required fields") 400)
     else
       apiKey <- lift (JS.Get body "apiKey") ;;
       apiKey <- lift (JS.ToString apiKey) ;;
       model <- lift (JS.Get body "model") ;;
       messages <- lift (JS.Get body "messages") ;;
       response_format <- lift (JS.Get body "response_format") ;;
       temperature <- lift (JS.Get body "temperature") ;;
       response <- fetch "https://api.openai.com/v1/chat/completions"
         (JObj [("method", JStr "POST");
                ("headers", JObj [("Content-Type", JStr "application/json");
                                  ("Authorization", JStr ("Bearer " ++ apiKey))]);
                ("body", JSON.stringify (JObj [("model", model);
                                               ("messages", messages);
                                               ("response_format", response_format);
                                               ("temperature", temperature)]))]) ;;
       if negb (ok response) then lift (Inline.relay_error response)
       else lift (Inline.relay_success response))%async
    (fun _error => lift (NextResponse_json (error_message "Internal server error") 500)).

End OpenAIOnly.

(** * The typed request *)

(** [interface ChatRequest] and the payloads that conform to it. *)
Inductive Role : Set := system | user.

Record Message : Set := {
  role : Role;
  content : string
}.

Inductive ResponseFormatType : Set := text | json_object.

Record ChatRequest : Set := {
  apiKey : string;
  model : string;
  messages : list Message;
  response_format : option ResponseFormatType;
  temperature : Number;
  max_completion_tokens : Number
}.

Definition Role_toJS (r : Role) : JSValue :=
  match r with
  | system => JStr "system"
  | user => JStr "user"
  end.

Definition Message_toJS (m : Message) : JSValue :=
  JObj [("role", Role_toJS (role m)); ("content", JStr (content m))].

Definition ResponseFormat_toJS (t : ResponseFormatType) : JSValue :=
  JObj [("type", JStr match t with text => "text" | json_object => "json_object" end)].

(** The parsed payload of a request of the given type: [response_format] is a
    property only when the caller supplied it. *)
Definition ChatRequest_toJS (r : ChatRequest) : JSValue :=
  JObj ([("apiKey", JStr (apiKey r));
         ("model", JStr (model r));
         ("messages", JArr (map Message_toJS (messages r)))]
        ++ match response_format r with
           | Some t => [("response_format", ResponseFormat_toJS t)]
           | None => []
           end
        ++ [("temperature", JNum (temperature r));
            ("max_completion_tokens", JNum (max_completion_tokens r))]).

Definition request_of (r : ChatRequest) : NextRequest :=
  {| request_json := Normal (ChatRequest_toJS r) |}.

(** * The page ([app/page.tsx], the revision with the stored keys) *)

(** What the page needs of the language beyond the relay. *)
Module Browser.

(** The white space that [trim] removes, among the code units below 256. *)
Definition is_space (c : ascii) : bool :=
  let n := nat_of_ascii c in
  ((9 <=? n) && (n <=? 13) || (n =? 32) || (n =? 160))%nat.

Fixpoint trimStart (s : string) : string :=
  match s with
  | EmptyString => EmptyString
  | String c rest => if is_space c then trimStart rest else s
  end.

Fixpoint trimEnd (s : string) : string :=
  match s with
  | EmptyString => EmptyString
  | String c rest =>
      match trimEnd rest with
      | EmptyString => if is_space c then EmptyString else String c EmptyString
      | kept => String c kept
      end
  end.

(** [s.trim()]. *)
Definition trim (s : string) : string := trimEnd (trimStart s).

(** ['name' in v]: an error on a value that is not an object; no array has
    the properties the page asks for. *)
Definition has (name : string) (v : JSValue) : Completion bool :=
  match v with
  | JObj fields => Normal (JS.has_property name fields)
  | JArr _ => Normal false
  | _ => Throw TypeError
  end.

(** [v[0]]. *)
Definition Get0 (v : JSValue) : Completion JSValue :=
  match v with
  | JUndefined | JNull => Throw TypeError
  | JArr [] => Normal JUndefined
  | JArr (x :: _) => Normal x
  | JStr EmptyString => Normal JUndefined
  | JStr (String c _) => Normal (JStr (String c EmptyString))
  | JObj fields => Normal (JS.lookup "0" fields)
  | _ => Normal JUndefined
  end.

(** [Array.prototype.some] with a callback that may throw. *)
Fixpoint some {A} (callback : A -> Completion bool) (l : list A) : Completion bool :=
  match l with
  | [] => Normal false
  | x :: rest =>
      match callback x with
      | Normal true => Normal true
      | Normal false => some callback rest
      | Throw e => Throw e
      end
  end.

(** [v.some(callback)]: only an array has the method. *)
Definition call_some (v : JSValue) (callback : JSValue -> Completion bool) : Completion bool :=
  match v with
  | JArr l => some callback l
  | _ => Throw TypeError
  end.

Fixpoint characters (s : string) : list JSValue :=
  match s with
  | EmptyString => []
  | String c rest => JStr (String c EmptyString) :: characters rest
  end.

(** [[x, ...v]]: an array and a string can be spread, nothing else among the
    values of a payload. *)
Definition spread_after (x v : JSValue) : Completion JSValue :=
  match v with
  | JArr l => Normal (JArr (x :: l))
  | JStr s => Normal (JArr (x :: characters s))
  | _ => Throw TypeError
  end.

(** [JSON.parse(JSON.stringify(v))] for a value other than [undefined]: what
    [JSON.text] prints as [null] comes back as [null], and the properties it
    leaves out are gone. *)
Fixpoint reparse (v : JSValue) : JSValue :=
  match v with
  | JUndefined => JNull
  | JNum n =>
      let s := Number_toString n in
      if (s =? "NaN") || (s =? "Infinity") || (s =? "-Infinity") then JNull else v
  | JArr l => JArr (map reparse l)
  | JObj fields =>
      JObj (flat_map (fun kv =>
                        match kv with
                        | (_, JUndefined) => []
                        | (k, x) => [(k, reparse x)]
                        end) fields)
  | _ => v
  end.

(** The string [JSON.stringify(v)] as it is stored, with what [JSON.parse]
    will make of it. *)
Definition stringified (v : JSValue) : BodyText :=
  match v with
  | JUndefined => {| chars := "undefined"; json := None |}
  | _ => {| chars := JSON.text v; json := Some (reparse v) |}
  end.

(** The two items of [localStorage] that the page uses:
    ['llm-playground-api-keys'], a JSON text, and ['llm-playground-api-key'],
    the single key of the first revision. *)
Record Storage : Set := {
  api_keys_item : option BodyText;
  api_key_item : option string
}.

End Browser.

Module Home.

Import Browser.

(** [interface FormData]; the model is one of the names of [modelProviders],
    a string at run time. *)
Record FormData : Set := {
  apiKey : string;
  model : string;
  systemPrompt : string;
  userPrompt : string;
  temperature : Number;
  responseFormat : ResponseFormatType;
  maxTokens : Number
}.

(** [modelProviders], in the order of [Object.entries]. *)
Definition modelProviders : list (string * list string) :=
  [("OpenAI", ["gpt-4.1"; "gpt-4.1-mini"; "gpt-4.1-nano"]);
   ("Anthropic", ["claude-opus-4-1-20250805"; "claude-opus-4-20250514";
                  "claude-sonnet-4-20250514"; "claude-3-7-sonnet-latest"]);
   ("Deepseek", ["deepseek-chat"; "deepseek-reasoner"])].

Definition defaultValues : FormData :=
  {| apiKey := "";
     model := "gpt-4.1";
     systemPrompt := "You are a helpful assistant.";
     userPrompt := "Hello!";
     temperature := num "1";
     responseFormat := text;
     maxTokens := num "2048" |}.

Definition isClaudeModel (model : string) : bool := String.prefix "claude-" model.

(** [models.includes(model)]. *)
Fixpoint includes (models : list string) (model : string) : bool :=
  match models with
  | [] => false
  | m :: rest => (m =? model) || includes rest model
  end.

(** [getProviderForModel]: the first provider that lists the model, or [null]. *)
Fixpoint getProviderFor (entries : list (string * list string)) (model : string) :
    option string :=
  match entries with
  | [] => None
  | (provider, models) :: rest =>
      if includes models model then Some provider else getProviderFor rest model
  end.

Definition getProviderForModel (model : string) : option string :=
  getProviderFor modelProviders model.

(** ** The stored keys *)

(** [getStoredApiKeys]: nothing where there is no [window]; otherwise the
    item, parsed, or nothing when the item is missing or empty. *)
Definition getStoredApiKeys (window : option Storage) : Completion JSValue :=
  match window with
  | None => Normal (JArr [])
  | Some localStorage =>
      match api_keys_item localStorage with
      | None => Normal (JArr [])
      | Some stored =>
          if chars stored =? "" then Normal (JArr []) else JSON_parse stored
      end
  end.

(** [saveStoredApiKeys], in the browser. *)
Definition saveStoredApiKeys (localStorage : Storage) (keys : JSValue) : Storage :=
  {| api_keys_item := Some (stringified keys);
     api_key_item := api_key_item localStorage |}.

(** The callback [stored => stored.key === key]. *)
Definition key_is (key : string) (stored : JSValue) : Completion bool :=
  (k <- JS.Get stored "key" ;; Normal (JS.strict_equals_string k key))%completion.

(** The callback [key => key.id !== id]. *)
Definition id_is_not (id : string) (key : JSValue) : Completion bool :=
  (i <- JS.Get key "id" ;; Normal (negb (JS.strict_equals_string i id)))%completion.

(** [addApiKey]; [now] and [now'] are the two readings of [Date.now()]. *)
Definition addApiKey (localStorage : Storage) (key : string) (now now' : Number) :
    Completion Storage :=
  (existing <- getStoredApiKeys (Some localStorage) ;;
   found <- call_some existing (key_is key) ;;
   if found then Normal localStorage
   else
     let newKey := JObj [("id", JStr (Number_toString now));
                         ("key", JStr key);
                         ("createdAt", JNum now')] in
     updated <- spread_after newKey existing ;;
     Normal (saveStoredApiKeys localStorage updated))%completion.

(** [deleteApiKey]. *)
Definition deleteApiKey (localStorage : Storage) (id : string) : Completion Storage :=
  (existing <- getStoredApiKeys (Some localStorage) ;;
   updated <- JS.call_filter existing (id_is_not id) ;;
   Normal (saveStoredApiKeys localStorage updated))%completion.

(** ** The state of the component *)

(** What [setError] was given: a string, or the [message] of an error of the
    engine, whose wording is the engine's. *)
Inductive ErrorText : Set :=
| Text (s : string)
| MessageOf (e : JSError).

(** [err instanceof Error ? err.message : ...]: every error here is one. *)
Definition message_of (err : JSError) : ErrorText :=
  match err with
  | Error message => Text message
  | _ => MessageOf err
  end.

(** The part of the component's state that the handlers below read and
    write; the state of the model cascader and of the tooltip is left out. *)
Record State : Set := {
  formData : FormData;
  output : JSValue;
  isLoading : bool;
  error : ErrorText;
  storedApiKeys : JSValue;
  showApiKeyDropdown : bool
}.

Definition setFormData (st : State) (fd : FormData) : State :=
  {| formData := fd; output := output st; isLoading := isLoading st; error := error st;
     storedApiKeys := storedApiKeys st; showApiKeyDropdown := showApiKeyDropdown st |}.

Definition setOutput (st : State) (v : JSValue) : State :=
  {| formData := formData st; output := v; isLoading := isLoading st; error := error st;
     storedApiKeys := storedApiKeys st; showApiKeyDropdown := showApiKeyDropdown st |}.

Definition setIsLoading (st : State) (b : bool) : State :=
  {| formData := formData st; output := output st; isLoading := b; error := error st;
     storedApiKeys := storedApiKeys st; showApiKeyDropdown := showApiKeyDropdown st |}.

Definition setError (st : State) (e : ErrorText) : State :=
  {| formData := formData st; output := output st; isLoading := isLoading st; error := e;
     storedApiKeys := storedApiKeys st; showApiKeyDropdown := showApiKeyDropdown st |}.

Definition setStoredApiKeys (st : State) (keys : JSValue) : State :=
  {| formData := formData st; output := output st; isLoading := isLoading st;
     error := error st; storedApiKeys := keys;
     showApiKeyDropdown := showApiKeyDropdown st |}.

Definition setShowApiKeyDropdown (st : State) (b : bool) : State :=
  {| formData := formData st; output := output st; isLoading := isLoading st;
     error := error st; storedApiKeys := storedApiKeys st; showApiKeyDropdown := b |}.

(** [{ ...prev, apiKey: key }]. *)
Definition with_apiKey (fd : FormData) (key : string) : FormData :=
  {| apiKey := key; model := model fd; systemPrompt := systemPrompt fd;
     userPrompt := userPrompt fd; temperature := temperature fd;
     responseFormat := responseFormat fd; maxTokens := maxTokens fd |}.

Definition initial : State :=
  {| formData := defaultValues; output := JStr ""; isLoading := false; error := Text "";
     storedApiKeys := JArr []; showApiKeyDropdown := false |}.

(** [isFormValid]. *)
Definition isFormValid (st : State) : bool :=
  negb (trim (apiKey (formData st)) =? "")
  && negb (trim (systemPrompt (formData st)) =? "")
  && negb (trim (userPrompt (formData st)) =? "").

(** ** The handlers *)

(** The effect that runs once on mount: the stored keys are loaded, and the
    single key of the first revision, if it is not among them, is added to
    them, removed from its item, and put in the form if the form has none. *)
Definition mount (st : State) (localStorage : Storage) (now now' : Number) :
    Completion (State * Storage) :=
  (keys <- getStoredApiKeys (Some localStorage) ;;
   let st := setStoredApiKeys st keys in
   match api_key_item localStorage with
   | None => Normal (st, localStorage)
   | Some oldApiKey =>
       if oldApiKey =? "" then Normal (st, localStorage)
       else
         found <- call_some keys (key_is oldApiKey) ;;
         if found then Normal (st, localStorage)
         else
           localStorage <- addApiKey localStorage oldApiKey now now' ;;
           updatedKeys <- getStoredApiKeys (Some localStorage) ;;
           let st := setStoredApiKeys st updatedKeys in
           let localStorage := {| api_keys_item := api_keys_item localStorage;
                                  api_key_item := None |} in
           Normal (if apiKey (formData st) =? ""
                   then setFormData st (with_apiKey (formData st) oldApiKey)
                   else st,
                   localStorage)
   end)%completion.

(** [handleDeleteApiKey]: the key is deleted, the list is read again, and the
    form loses its key when that key is not in the list. *)
Definition handleDeleteApiKey (st : State) (localStorage : Storage) (id : string) :
    Completion (State * Storage) :=
  (localStorage <- deleteApiKey localStorage id ;;
   updatedKeys <- getStoredApiKeys (Some localStorage) ;;
   let currentKey := apiKey (formData st) in
   let st := setStoredApiKeys st updatedKeys in
   found <- call_some updatedKeys (key_is currentKey) ;;
   Normal (if found then st else setFormData st (with_apiKey (formData st) ""),
           localStorage))%completion.

(** [handleReset]. *)
Definition handleReset (st : State) : State :=
  setShowApiKeyDropdown
    (setError (setOutput (setFormData st (with_apiKey defaultValues "")) (JStr ""))
       (Text ""))
    false.

(** The object that [handleSubmit] sends as JSON: the Anthropic models get no
    [response_format]. *)
Definition requestBody (fd : FormData) : JSValue :=
  JObj ([("apiKey", JStr (apiKey fd));
         ("model", JStr (model fd));
         ("messages", JArr [JObj [("role", JStr "system");
                                  ("content", JStr (systemPrompt fd))];
                            JObj [("role", JStr "user");
                                  ("content", JStr (userPrompt fd))]])]
        ++ (if isClaudeModel (model fd) then []
            else [("response_format", ResponseFormat_toJS (responseFormat fd))])
        ++ [("temperature", JNum (temperature fd));
            ("max_completion_tokens", JNum (maxTokens fd))]).

(** The [try] block of [handleSubmit]: the call of the relay, and the value
    that [setOutput] is given, unless something throws. *)
Definition ask (fd : FormData) : Async JSValue :=
  (response <- fetch "/api/chat"
                 (JObj [("method", JStr "POST");
                        ("headers", JObj [("Content-Type", JStr "application/json")]);
                        ("body", JSON.stringify (requestBody fd))]) ;;
   if negb (ok response) then
     errorData <- lift (Response_json response) ;;
     error <- lift (JS.Get errorData "error") ;;
     message <- lift (JS.OptionalGet error "message") ;;
     message <- lift (JS.ToString (JS.or_else message (JStr (status_line response)))) ;;
     lift (Throw (Error message))
   else
     data <- lift (Response_json response) ;;
     choices <- lift (has "choices" data) ;;
     if choices then
       choices <- lift (JS.Get data "choices") ;;
       first <- lift (Get0 choices) ;;
       message <- lift (JS.Get first "message") ;;
       lift (JS.Get message "content")
     else
       content <- lift (JS.Get data "content") ;;
       first <- lift (Get0 content) ;;
       lift (JS.Get first "text"))%async.

(** What a run of a handler leaves: the calls it made, the state, the
    storage, and the error that left the handler, if one did. *)
Record Outcome : Set := {
  calls : list FetchCall;
  state : State;
  storage : Storage;
  uncaught : option JSError
}.

(** [handleSubmit].  The key is stored before the [try]: an error there
    leaves the handler, and the state stays as the first three updates made
    it. *)
Definition handleSubmit (st : State) (localStorage : Storage) (now now' : Number)
    (net : Network) : Outcome :=
  let fd := formData st in
  let key := trim (apiKey fd) in
  let st := setOutput (setError (setIsLoading st true) (Text "")) (JStr "") in
  match (if key =? "" then Normal localStorage
         else addApiKey localStorage key now now') with
  | Throw e =>
      {| calls := []; state := st; storage := localStorage; uncaught := Some e |}
  | Normal localStorage =>
      match (if key =? "" then Normal st
             else (keys <- getStoredApiKeys (Some localStorage) ;;
                   Normal (setStoredApiKeys st keys))%completion) with
      | Throw e =>
          {| calls := []; state := st; storage := localStorage; uncaught := Some e |}
      | Normal st =>
          let (calls, result) := ask fd net in
          {| calls := calls;
             state := setIsLoading
                        match result with
                        | Normal shown => setOutput st shown
                        | Throw err => setError st (message_of err)
                        end
                        false;
             storage := localStorage;
             uncaught := None |}
      end
  end.

End Home.

(** * Notions used in the statements *)

Import Strategy.
Local Open Scope list_scope.

(** The model names the relay dispatches on. *)
Definition isClaude (model : string) : bool := String.prefix "claude-" model.
Definition isDeepseek (model : string) : bool := String.prefix "deepseek-" model.

(** The static field after [registerProvider] was called with each of [extra]
    in turn. *)
Definition registered (extra : list LLMProvider) : list LLMProvider :=
  fold_left LLMProviderFactory.registerProvider extra LLMProviderFactory.providers.

(** The three answers the handler builds itself. *)
Definition missing_fields_response : NextResponse :=
  {| response_status := 400;
     response_body := JSON.text (error_message "Missing required fields") |}.

Definition internal_error_response : NextResponse :=
  {| response_status := 500;
     response_body := JSON.text (error_message "Internal server error") |}.

Definition invalid_json_response : NextResponse :=
  {| response_status := 502;
     response_body := JSON.text (error_message "Invalid JSON response from LLM provider") |}.

(** The statuses [NextResponse.json] accepts with a body. *)
Definition relayable (status : N) : bool :=
  ((200 <=? status) && (status <=? 599))%N && negb (null_body_status status).

(** The answer of the handler once [fetch] has settled: the non-success branch,
    the success branch, and the outer [catch] around both. *)
Definition respond (upstream : Completion Response) : Completion NextResponse :=
  match (response <- upstream ;;
         if negb (ok response) then relay_error response else relay_success response)%completion
  with
  | Normal answer => Normal answer
  | Throw _ => Normal internal_error_response
  end.

(** What [fetch] is called with, for each provider, when the payload lets the
    provider build its request. *)
Definition prepare (requestBody : JSValue -> Completion JSValue)
    (u : string) (headers : JSValue -> Completion (list (string * JSValue)))
    (request : JSValue) : Completion FetchCall :=
  (requestBody <- requestBody request ;;
   apiKey <- JS.Get request "apiKey" ;;
   headers <- headers apiKey ;;
   Normal {| url := u;
             init := JObj [("method", JStr "POST");
                           ("headers", JObj headers);
                           ("body", JSON.stringify requestBody)] |})%completion.

Definition call_once (prepared : Completion FetchCall) : Async Response :=
  fun net =>
    match prepared with
    | Normal call => ([call], net call)
    | Throw e => ([], Throw e)
    end.

Definition Claude_call : JSValue -> Completion FetchCall :=
  prepare ClaudeProvider.requestBody "https://api.anthropic.com/v1/messages"
    (fun apiKey => Normal [("Content-Type", JStr "application/json");
                           ("x-api-key", apiKey);
                           ("anthropic-version", JStr "2023-06-01")]).

Definition Deepseek_call : JSValue -> Completion FetchCall :=
  prepare DeepseekProvider.requestBody "https://api.deepseek.com/chat/completions"
    (fun apiKey =>
       (apiKey <- JS.ToString apiKey ;;
        Normal [("Content-Type", JStr "application/json");
                ("Accept", JStr "application/json");
                ("Authorization", JStr ("Bearer " ++ apiKey)%string)])%completion).

Definition OpenAI_call : JSValue -> Completion FetchCall :=
  prepare OpenAIProvider.requestBody "https://api.openai.com/v1/chat/completions"
    (fun apiKey =>
       (apiKey <- JS.ToString apiKey ;;
        Normal [("Content-Type", JStr "application/json");
                ("Authorization", JStr ("Bearer " ++ apiKey)%string)])%completion).

(** The call the Strategy revision is about to make for a parsed payload:
    validation, then the provider selected by the model. *)
Inductive Plan : Type :=
| Reject
| Fail
| Call (call : FetchCall).

Definition plan_of (prepared : Completion FetchCall) : Plan :=
  match prepared with
  | Normal call => Call call
  | Throw _ => Fail
  end.

Definition plan (request : NextRequest) : Plan :=
  match request_json request with
  | Throw _ => Fail
  | Normal body =>
      match missing_required_fields body with
      | Throw _ => Fail
      | Normal true => Reject
      | Normal false =>
          match JS.Get body "model" with
          | Normal (JStr model) =>
              plan_of (if isClaude model then Claude_call body
                       else if isDeepseek model then Deepseek_call body
                       else OpenAI_call body)
          | _ => Fail
          end
      end
  end.

(** Following a plan: the handler answers 400 or 500 without calling anyone,
    or makes the one call and answers from its outcome. *)
Definition follow (p : Plan) (net : Network) : list FetchCall * Completion NextResponse :=
  match p with
  | Reject => ([], Normal missing_fields_response)
  | Fail => ([], Normal internal_error_response)
  | Call call => ([call], respond (net call))
  end.

Definition is_user (m : Message) : bool :=
  match role m with
  | user => true
  | system => false
  end.

Definition is_system (m : Message) : bool :=
  match role m with
  | system => true
  | user => false
  end.

Definition default_system : string := "You are a helpful assistant.".

(** The [system] string of the Anthropic payload: the content of the first
    message of role [system] unless it is empty, and the default otherwise. *)
Definition system_prompt (msgs : list Message) : string :=
  match List.find is_system msgs with
  | Some m => if content m =? "" then default_system else content m
  | None => default_system
  end.

(** The [response_format] property of a payload, when the caller supplied one. *)
Definition supplied_format (r : ChatRequest) : list (string * JSValue) :=
  match response_format r with
  | Some t => [("response_format", ResponseFormat_toJS t)]
  | None => []
  end.

(** The body each provider builds from a typed request. *)
Definition Claude_body (r : ChatRequest) : JSValue :=
  JObj [("model", JStr (model r));
        ("max_tokens", JNum (max_completion_tokens r));
        ("temperature", JNum (temperature r));
        ("messages", JArr (map Message_toJS (List.filter is_user (messages r))));
        ("system", JStr (system_prompt (messages r)))].

Definition Deepseek_body (r : ChatRequest) : JSValue :=
  JObj ([("model", JStr (model r));
         ("messages", JArr (map Message_toJS (messages r)));
         ("temperature", JNum (temperature r));
         ("max_tokens", JNum (max_completion_tokens r))]
        ++ supplied_format r).

Definition OpenAI_body (r : ChatRequest) : JSValue :=
  JObj ([("model", JStr (model r));
         ("messages", JArr (map Message_toJS (messages r)));
         ("temperature", JNum (temperature r));
         ("max_completion_tokens", JNum (max_completion_tokens r))]
        ++ supplied_format r).

(** The outbound calls for a typed request. *)
Definition Anthropic_request (r : ChatRequest) : FetchCall :=
  {| url := "https://api.anthropic.com/v1/messages";
     init := JObj [("method", JStr "POST");
                   ("headers", JObj [("Content-Type", JStr "application/json");
                                     ("x-api-key", JStr (apiKey r));
                                     ("anthropic-version", JStr "2023-06-01")]);
                   ("body", JSON.stringify (Claude_body r))] |}.

Definition Deepseek_request (r : ChatRequest) : FetchCall :=
  {| url := "https://api.deepseek.com/chat/completions";
     init := JObj [("method", JStr "POST");
                   ("headers", JObj [("Content-Type", JStr "application/json");
                                     ("Accept", JStr "application/json");
                                     ("Authorization", JStr ("Bearer " ++ apiKey r)%string)]);
                   ("body", JSON.stringify (Deepseek_body r))] |}.

Definition OpenAI_request (r : ChatRequest) : FetchCall :=
  {| url := "https://api.openai.com/v1/chat/completions";
     init := JObj [("method", JStr "POST");
                   ("headers", JObj [("Content-Type", JStr "application/json");
                                     ("Authorization", JStr ("Bearer " ++ apiKey r)%string)]);
                   ("body", JSON.stringify (OpenAI_body r))] |}.

(** The request the relay sends for a typed request that passes validation. *)
Definition outbound (r : ChatRequest) : FetchCall :=
  if isClaude (model r) then Anthropic_request r
  else if isDeepseek (model r) then Deepseek_request r
  else OpenAI_request r.

(** The scenario of the specification: a terse system prompt and one user
    turn. *)
Definition terse_request : ChatRequest :=
  {| apiKey := "k";
     model := "claude-sonnet-4-20250514";
     messages := [{| role := system; content := "Be terse." |};
                  {| role := user; content := "Hi" |}];
     response_format := None;
     temperature := num "0.5";
     max_completion_tokens := num "100" |}.

(** An upstream that answers every call with 200 and the JSON text [[1, 2]],
    which parses as the array of 1 and 2. *)
Definition one_two : Response :=
  {| status := 200;
     statusText := "OK";
     body := Normal {| chars := "[1, 2]";
                       json := Some (JArr [JNum (num "1"); JNum (num "2")]) |} |}.

Definition upstream_ok : Network := fun _ => Normal one_two.

(** What the claim says the [system] string is: the content of the first
    message of role [system], whatever it is. *)
Definition system_as_claimed (msgs : list Message) : string :=
  match List.find is_system msgs with
  | Some m => content m
  | None => "You are a helpful assistant."
  end.

(** A request whose system message is empty. *)
Definition empty_system_request : ChatRequest :=
  {| apiKey := "k";
     model := "claude-sonnet-4-20250514";
     messages := [{| role := system; content := "" |};
                  {| role := user; content := "Hi" |}];
     response_format := None;
     temperature := num "0.5";
     max_completion_tokens := num "100" |}.

(** The scenario of the specification: [gpt-4.1] with a JSON response format. *)
Definition json_request : ChatRequest :=
  {| apiKey := "k";
     model := "gpt-4.1";
     messages := [{| role := system; content := "Be terse." |};
                  {| role := user; content := "Hi" |}];
     response_format := Some json_object;
     temperature := num "1";
     max_completion_tokens := num "2048" |}.

(** The same request with another [response_format]. *)
Definition with_response_format (r : ChatRequest) (t : option ResponseFormatType) : ChatRequest :=
  {| apiKey := apiKey r;
     model := model r;
     messages := messages r;
     response_format := t;
     temperature := temperature r;
     max_completion_tokens := max_completion_tokens r |}.

(** A property [name] that the payload lacks, or whose value is falsy
    ([null], [false], [0], the empty string). *)
Definition missing (name : string) (fields : list (string * JSValue)) : Prop :=
  JS.ToBoolean (JS.lookup name fields) = false.

(** A property [name] that reads as [undefined]. *)
Definition absent (name : string) (fields : list (string * JSValue)) : Prop :=
  JS.lookup name fields = JUndefined.

(** A payload without [max_completion_tokens]. *)
Definition no_max_tokens : list (string * JSValue) :=
  [("apiKey", JStr "k");
   ("model", JStr "gpt-4.1");
   ("messages", JArr [JObj [("role", JStr "user"); ("content", JStr "Hi")]]);
   ("temperature", JNum (num "1"))].

(** A payload whose [temperature] is a string. *)
Definition hot_payload : list (string * JSValue) :=
  [("apiKey", JStr "k");
   ("model", JStr "gpt-4.1");
   ("messages", JArr [JObj [("role", JStr "user"); ("content", JStr "Hi")]]);
   ("temperature", JStr "hot");
   ("max_completion_tokens", JNum (num "100"))].

(** An upstream that answers 401 with an error object, in compact JSON. *)
Definition incorrect_key : JSValue :=
  JObj [("error", JObj [("message", JStr "Incorrect API key provided")])].

Definition unauthorized : Response :=
  {| status := 401;
     statusText := "Unauthorized";
     body := Normal {| chars := JSON.text incorrect_key; json := Some incorrect_key |} |}.

(** An upstream, or a gateway before it, that answers 502 with a page of HTML. *)
Definition bad_gateway : Response :=
  {| status := 502;
     statusText := "Bad Gateway";
     body := Normal {| chars := "<!DOCTYPE html><html><body>Bad Gateway</body></html>";
                       json := None |} |}.

(** An upstream that answers 200 with a page of HTML. *)
Definition html_page : Response :=
  {| status := 200;
     statusText := "OK";
     body := Normal {| chars := "<html><body>It works!</body></html>"; json := None |} |}.

Definition calls_of (p : Plan) : list FetchCall :=
  match p with
  | Call call => [call]
  | Reject | Fail => []
  end.

(** ** Further payloads, providers and upstreams *)

(** A payload whose [model] is a number. *)
Definition numeric_model : list (string * JSValue) :=
  [("apiKey", JStr "k");
   ("model", JNum (num "4"));
   ("messages", JArr [JObj [("role", JStr "user"); ("content", JStr "Hi")]]);
   ("temperature", JNum (num "1"));
   ("max_completion_tokens", JNum (num "100"))].

(** A network on which no call completes. *)
Definition unreachable : Network := fun _ => Throw TypeError.

(** An upstream that answers 429 with an error object. *)
Definition rate_limited : Response :=
  {| status := 429;
     statusText := "Too Many Requests";
     body := Normal {| chars := JSON.text (error_message "Rate limit reached");
                       json := Some (error_message "Rate limit reached") |} |}.

(** The properties an outbound body may have. *)
Definition body_properties : list string :=
  ["model"; "messages"; "temperature"; "max_tokens"; "max_completion_tokens"; "system";
   "response_format"].

(** An object without its property [name]. *)
Definition remove_property (name : string) (fields : list (string * JSValue)) :
    list (string * JSValue) :=
  List.filter (fun kv => negb (fst kv =? name)%string) fields.

(** A payload that asks for the response format [null]. *)
Definition null_format : list (string * JSValue) :=
  [("apiKey", JStr "k");
   ("model", JStr "gpt-4.1");
   ("messages", JArr [JObj [("role", JStr "user"); ("content", JStr "Hi")]]);
   ("response_format", JNull);
   ("temperature", JNum (num "1"));
   ("max_completion_tokens", JNum (num "100"))].

(** Whether a provider answers [true] to [canHandle]. *)
Definition handles (model : JSValue) (p : LLMProvider) : bool :=
  match canHandle p model with
  | Normal true => true
  | _ => false
  end.

(** A provider for the models whose name starts with "llama-", speaking the
    protocol of OpenAI. *)
Definition Llama : LLMProvider :=
  {| canHandle := fun model => JS.startsWith model "llama-";
     makeRequest := OpenAIProvider.makeRequest |}.

(** An upstream whose successful answer breaks off before the body is read. *)
Definition broken_body : Response :=
  {| status := 200; statusText := "OK"; body := Throw TypeError |}.

(** An upstream that answers 404 with the JSON text [null]. *)
Definition null_body : Response :=
  {| status := 404;
     statusText := "Not Found";
     body := Normal {| chars := "null"; json := Some JNull |} |}.

(** The answer of the inline revision once [fetch] has settled. *)
Definition Inline_respond (upstream : Completion Response) : Completion NextResponse :=
  match (response <- upstream ;;
         if negb (ok response) then Inline.relay_error response
         else Inline.relay_success response)%completion
  with
  | Normal answer => Normal answer
  | Throw _ => Normal internal_error_response
  end.

(** A network whose every answer has a body that is JSON. *)
Definition answers_JSON (net : Network) : Prop :=
  forall call response,
    net call = Normal response ->
    exists t data, body response = Normal t /\ json t = Some data.

(** ** The page: stored keys and answers of the declared types *)

(** A number that JSON can carry. *)
Definition finite (n : Number) : bool :=
  let s := Number_toString n in
  negb ((s =? "NaN") || (s =? "Infinity") || (s =? "-Infinity"))%string.

(** [interface StoredApiKey]. *)
Module StoredApiKey.

Record t : Set := {
  id : string;
  key : string;
  createdAt : Number
}.

Definition toJS (k : t) : JSValue :=
  JObj [("id", JStr (id k)); ("key", JStr (key k)); ("createdAt", JNum (createdAt k))].

End StoredApiKey.

Definition keys_toJS (keys : list StoredApiKey.t) : JSValue :=
  JArr (map StoredApiKey.toJS keys).

(** Stored keys that [JSON.stringify] prints as they are. *)
Definition storable (keys : list StoredApiKey.t) : Prop :=
  Forall (fun k => finite (StoredApiKey.createdAt k) = true) keys.

(** A storage that holds the list [keys], as [saveStoredApiKeys] wrote it, and
    maybe the single key [old] of the first revision. *)
Definition holding (keys : list StoredApiKey.t) (old : option string) : Browser.Storage :=
  {| Browser.api_keys_item := Some (Browser.stringified (keys_toJS keys));
     Browser.api_key_item := old |}.

(** A storage in which the page has written nothing yet. *)
Definition fresh (old : option string) : Browser.Storage :=
  {| Browser.api_keys_item := None; Browser.api_key_item := old |}.

Definition has_key (key : string) (keys : list StoredApiKey.t) : bool :=
  existsb (fun k => StoredApiKey.key k =? key)%string keys.

Definition without_id (id : string) (keys : list StoredApiKey.t) : list StoredApiKey.t :=
  List.filter (fun k => negb (StoredApiKey.id k =? id)%string) keys.

(** The entry that [addApiKey] makes. *)
Definition new_key (key : string) (now now' : Number) : StoredApiKey.t :=
  {| StoredApiKey.id := Number_toString now;
     StoredApiKey.key := key;
     StoredApiKey.createdAt := now' |}.

(** Two stored keys, the second one older. *)
Definition two_keys : list StoredApiKey.t :=
  [{| StoredApiKey.id := "1756700000000"; StoredApiKey.key := "sk-b";
      StoredApiKey.createdAt := num "1756700000000" |};
   {| StoredApiKey.id := "1756600000000"; StoredApiKey.key := "sk-a";
      StoredApiKey.createdAt := num "1756600000000" |}].

(** The provider of the relay that goes by a name of [modelProviders]. *)
Definition provider_named (name : string) : LLMProvider :=
  if name =? "Anthropic" then Claude
  else if name =? "Deepseek" then Deepseek
  else OpenAI.

(** The request of the declared type that a form stands for. *)
Definition chat_request_of (fd : Home.FormData) : ChatRequest :=
  {| apiKey := Home.apiKey fd;
     model := Home.model fd;
     messages := [{| role := system; content := Home.systemPrompt fd |};
                  {| role := user; content := Home.userPrompt fd |}];
     response_format := if Home.isClaudeModel (Home.model fd) then None
                        else Some (Home.responseFormat fd);
     temperature := Home.temperature fd;
     max_completion_tokens := Home.maxTokens fd |}.

(** The request that reaches the relay when the page sends [fd]: the payload
    is [JSON.parse] of the text that [JSON.stringify] made. *)
Definition delivered (fd : Home.FormData) : NextRequest :=
  {| request_json := Normal (Browser.reparse (Home.requestBody fd)) |}.

(** The call of the relay that [handleSubmit] makes. *)
Definition relay_call (fd : Home.FormData) : FetchCall :=
  {| url := "/api/chat";
     init := JObj [("method", JStr "POST");
                   ("headers", JObj [("Content-Type", JStr "application/json")]);
                   ("body", JSON.stringify (Home.requestBody fd))] |}.

(** A form with a key, as the user may submit it. *)
Definition filled_form : Home.FormData :=
  Home.with_apiKey Home.defaultValues " sk-c ".

Definition filled : Home.State := Home.setFormData Home.initial filled_form.

(** A relay that answers 200 with a chat completion of OpenAI. *)
Definition completion_fields : list (string * JSValue) :=
  [("id", JStr "chatcmpl-1");
   ("choices", JArr [JObj [("index", JNum (num "0"));
                           ("message", JObj [("role", JStr "assistant");
                                             ("content", JStr "Hello there!")])]])].

Definition relay_completion : Network :=
  fun _ => Normal {| status := 200; statusText := "OK";
                     body := Normal (Browser.stringified (JObj completion_fields)) |}.

(** A relay that answers 401 with the error of the upstream. *)
Definition relay_unauthorized : Network := fun _ => Normal unauthorized.

(** What [handleSubmit] makes of the answer of the relay: the value for
    [setOutput], or the error that the [catch] shows. *)
Definition shown (response : Response) : Completion JSValue :=
  if negb (ok response) then
    (errorData <- Response_json response ;;
     error <- JS.Get errorData "error" ;;
     message <- JS.OptionalGet error "message" ;;
     message <- JS.ToString (JS.or_else message (JStr (status_line response))) ;;
     Throw (Error message))%completion
  else
    (data <- Response_json response ;;
     choices <- Browser.has "choices" data ;;
     if choices then
       choices <- JS.Get data "choices" ;;
       first <- Browser.Get0 choices ;;
       message <- JS.Get first "message" ;;
       JS.Get message "content"
     else
       content <- JS.Get data "content" ;;
       first <- Browser.Get0 content ;;
       JS.Get first "text")%completion.

(** The stored keys after [handleSubmit] has stored the key of the form. *)
Definition keys_after_submit (keys : list StoredApiKey.t) (key : string) (now now' : Number) :
    list StoredApiKey.t :=
  if (Browser.trim key =? "")%string then keys
  else if has_key (Browser.trim key) keys then keys
  else new_key (Browser.trim key) now now' :: keys.

(** The state in which [handleSubmit] calls the relay. *)
Definition submitting (st : Home.State) (keys : list StoredApiKey.t) (now now' : Number) :
    Home.State :=
  let st' := Home.setOutput (Home.setError (Home.setIsLoading st true) (Home.Text ""))
               (JStr "") in
  if (Browser.trim (Home.apiKey (Home.formData st)) =? "")%string then st'
  else Home.setStoredApiKeys st'
         (keys_toJS (keys_after_submit keys (Home.apiKey (Home.formData st)) now now')).

(** A storage whose item is the JSON text of an object, not of a list. *)
Definition spoiled : Browser.Storage :=
  {| Browser.api_keys_item := Some (Browser.stringified (JObj []));
     Browser.api_key_item := None |}.

(** * Provider selection *)

(** The three providers are told apart by what they handle. *)
Lemma providers_distinct : Claude <> Deepseek /\ Claude <> OpenAI /\ Deepseek <> OpenAI.
Proof.
  repeat split; intros H.
  - apply (f_equal (fun p => canHandle p (JStr "claude-3"))) in H. discriminate H.
  - apply (f_equal (fun p => canHandle p (JStr "gpt-4.1"))) in H. discriminate H.
  - apply (f_equal (fun p => canHandle p (JStr "gpt-4.1"))) in H. discriminate H.
Qed.

(** The search of [getProvider] on the initial list, for a model string. *)
Lemma find_initial (model : string) :
  JS.find (fun p => canHandle p (JStr model)) LLMProviderFactory.providers =
  Normal (Some (if isClaude model then Claude
                else if isDeepseek model then Deepseek
                else OpenAI)).
Proof.
  unfold LLMProviderFactory.providers, isClaude, isDeepseek.
  cbn [JS.find canHandle Claude Deepseek OpenAI].
  unfold ClaudeProvider.canHandle, DeepseekProvider.canHandle, OpenAIProvider.canHandle,
    JS.startsWith.
  destruct (String.prefix "claude-" model); [reflexivity |].
  destruct (String.prefix "deepseek-" model); reflexivity.
Qed.

Lemma getProvider_initial (model : string) :
  LLMProviderFactory.getProvider LLMProviderFactory.providers (JStr model) =
  Normal (if isClaude model then Claude
          else if isDeepseek model then Deepseek
          else OpenAI).
Proof. unfold LLMProviderFactory.getProvider. now rewrite find_initial. Qed.

(** C1.  For every model string, [getProvider] on the initial list selects one
    provider, the first that matches: the Anthropic one for a model that starts
    with "claude-", otherwise the Deepseek one for a model that starts with
    "deepseek-", otherwise (the empty string and unknown names included) the
    OpenAI one. *)
Theorem getProvider_first_match (model : string) :
  LLMProviderFactory.getProvider LLMProviderFactory.providers (JStr model) =
  Normal (if String.prefix "claude-" model then Claude
          else if String.prefix "deepseek-" model then Deepseek
          else OpenAI)
  /\ LLMProviderFactory.getProvider LLMProviderFactory.providers (JStr "") = Normal OpenAI.
Proof.
  split; [| reflexivity].
  unfold LLMProviderFactory.getProvider, LLMProviderFactory.providers.
  cbn [JS.find canHandle Claude Deepseek OpenAI Completion_bind].
  unfold ClaudeProvider.canHandle, DeepseekProvider.canHandle, OpenAIProvider.canHandle,
    JS.startsWith.
  destruct (String.prefix "claude-" model); [reflexivity |].
  destruct (String.prefix "deepseek-" model); reflexivity.
Qed.

Example getProvider_claude :
  LLMProviderFactory.getProvider LLMProviderFactory.providers (JStr "claude-sonnet-4-20250514")
  = Normal Claude.
Proof. reflexivity. Qed.

Example getProvider_deepseek :
  LLMProviderFactory.getProvider LLMProviderFactory.providers (JStr "deepseek-chat")
  = Normal Deepseek.
Proof. reflexivity. Qed.

Example getProvider_empty :
  LLMProviderFactory.getProvider LLMProviderFactory.providers (JStr "") = Normal OpenAI.
Proof. reflexivity. Qed.

Example getProvider_unknown :
  LLMProviderFactory.getProvider LLMProviderFactory.providers (JStr "llama-3") = Normal OpenAI.
Proof. reflexivity. Qed.

(** A model that is not a string stops the search at the first provider. *)
Lemma getProvider_not_a_string (model : JSValue) :
  (forall s, model <> JStr s) ->
  LLMProviderFactory.getProvider LLMProviderFactory.providers model = Throw TypeError.
Proof.
  intros H. destruct model; try reflexivity. now destruct (H s).
Qed.

(** ** The registry after any number of registrations *)

Lemma registerProvider_before_last (front : list LLMProvider) (fallback provider : LLMProvider) :
  LLMProviderFactory.registerProvider (front ++ [fallback]) provider
  = (front ++ [provider]) ++ [fallback].
Proof.
  unfold LLMProviderFactory.registerProvider.
  rewrite length_app, Nat.add_sub. simpl.
  rewrite firstn_app, firstn_all, Nat.sub_diag, skipn_app, skipn_all, Nat.sub_diag.
  simpl. now rewrite app_nil_r, <- app_assoc.
Qed.

Lemma fold_registerProvider (extra front : list LLMProvider) (fallback : LLMProvider) :
  fold_left LLMProviderFactory.registerProvider extra (front ++ [fallback])
  = (front ++ extra) ++ [fallback].
Proof.
  revert front. induction extra as [| p extra IH]; intros front; simpl.
  - now rewrite app_nil_r.
  - rewrite registerProvider_before_last, IH, <- (app_assoc front [p] extra). reflexivity.
Qed.

Lemma registered_shape (extra : list LLMProvider) :
  registered extra = ([Claude; Deepseek] ++ extra) ++ [OpenAI].
Proof. apply (fold_registerProvider extra [Claude; Deepseek] OpenAI). Qed.

(** A search that ends on a provider that handles everything finds something. *)
Lemma find_with_fallback (model : JSValue) (front : list LLMProvider) :
  JS.find (fun p => canHandle p model) (front ++ [OpenAI]) <> Normal None.
Proof.
  induction front as [| p front IH]; simpl.
  - discriminate.
  - destruct (canHandle p model) as [[|]|]; try discriminate. exact IH.
Qed.

Lemma find_total (model : JSValue) (front : list LLMProvider) :
  Forall (fun p => exists b, canHandle p model = Normal b) front ->
  exists p, JS.find (fun p => canHandle p model) (front ++ [OpenAI]) = Normal (Some p).
Proof.
  induction 1 as [| p front [b Hb] _ IH]; simpl.
  - now exists OpenAI.
  - rewrite Hb. destruct b; [now exists p | exact IH].
Qed.

(** C9.  [getProvider] returns a provider for every model string; the OpenAI
    provider handles every model and is last in the list, also after any
    number of calls of [registerProvider], which inserts before the last
    element; so the search never comes back empty, which is the only way to
    the `No provider found` throw, and [getProvider] returns a provider
    whenever the registered providers answer [canHandle]. *)
Theorem getProvider_never_unmatched :
  (forall model : string,
      exists p, LLMProviderFactory.getProvider LLMProviderFactory.providers (JStr model) = Normal p)
  /\ (forall model : JSValue, canHandle OpenAI model = Normal true)
  /\ (forall extra, exists front, registered extra = front ++ [OpenAI])
  /\ (forall extra (model : JSValue),
        JS.find (fun p => canHandle p model) (registered extra) <> Normal None)
  /\ (forall extra (model : string),
        Forall (fun p => exists b, canHandle p (JStr model) = Normal b) extra ->
        exists p, LLMProviderFactory.getProvider (registered extra) (JStr model) = Normal p).
Proof.
  split; [| split; [| split; [| split]]].
  - intros model. rewrite getProvider_initial. eauto.
  - reflexivity.
  - intros extra. rewrite registered_shape. eauto.
  - intros extra model. rewrite registered_shape. apply find_with_fallback.
  - intros extra model Hextra. rewrite registered_shape.
    unfold LLMProviderFactory.getProvider.
    destruct (find_total (JStr model) ([Claude; Deepseek] ++ extra)) as [p Hp].
    + repeat constructor; [now eexists | now eexists | exact Hextra].
    + rewrite Hp. now exists p.
Qed.

(** A provider registered later is consulted before the fallback. *)
Example registerProvider_example (llama : LLMProvider) :
  LLMProviderFactory.registerProvider LLMProviderFactory.providers llama
  = [Claude; Deepseek; llama; OpenAI].
Proof. reflexivity. Qed.

(** * The course of a request *)

Lemma NextResponse_json_object (fields : list (string * JSValue)) (st : N) :
  relayable st = true ->
  NextResponse_json (JObj fields) st
  = Normal {| response_status := st; response_body := JSON.text (JObj fields) |}.
Proof.
  unfold relayable, NextResponse_json. cbn [JSON.stringify].
  intros [[Hlow Hhigh]%andb_prop Hbody%negb_true_iff]%andb_prop.
  rewrite Hbody.
  replace (st <? 200)%N with false by (symmetry; apply N.ltb_ge; now apply N.leb_le).
  replace (599 <? st)%N with false by (symmetry; apply N.ltb_ge; now apply N.leb_le).
  reflexivity.
Qed.

(** ** Laws of the two monads *)

Lemma bind_lift_Normal {A B} (a : A) (k : A -> Async B) (net : Network) :
  bind (lift (Normal a)) k net = k a net.
Proof. unfold bind, lift. now destruct (k a net). Qed.

Lemma try_catch_lift {A} (m : Async A) (handler : Completion A) (net : Network) :
  try_catch m (fun _ => lift handler) net =
  (fst (m net), match snd (m net) with Normal a => Normal a | Throw _ => handler end).
Proof.
  unfold try_catch, lift. destruct (m net) as [calls [a | e]]; simpl; [reflexivity |].
  now rewrite app_nil_r.
Qed.

(** ** What the handler does with the outcome of its call *)

Lemma Claude_makeRequest (request : JSValue) (net : Network) :
  ClaudeProvider.makeRequest request net = call_once (Claude_call request) net.
Proof.
  unfold ClaudeProvider.makeRequest, Claude_call, prepare, call_once, bind, lift, fetch.
  destruct (ClaudeProvider.requestBody request); simpl; [| reflexivity].
  destruct (JS.Get request "apiKey"); reflexivity.
Qed.

Lemma Deepseek_makeRequest (request : JSValue) (net : Network) :
  DeepseekProvider.makeRequest request net = call_once (Deepseek_call request) net.
Proof.
  unfold DeepseekProvider.makeRequest, Deepseek_call, prepare, call_once, bind, lift, fetch.
  destruct (DeepseekProvider.requestBody request); simpl; [| reflexivity].
  destruct (JS.Get request "apiKey") as [apiKey |]; simpl; [| reflexivity].
  destruct (JS.ToString apiKey); reflexivity.
Qed.

Lemma OpenAI_makeRequest (request : JSValue) (net : Network) :
  OpenAIProvider.makeRequest request net = call_once (OpenAI_call request) net.
Proof.
  unfold OpenAIProvider.makeRequest, OpenAI_call, prepare, call_once, bind, lift, fetch.
  destruct (OpenAIProvider.requestBody request); simpl; [| reflexivity].
  destruct (JS.Get request "apiKey") as [apiKey |]; simpl; [| reflexivity].
  destruct (JS.ToString apiKey); reflexivity.
Qed.

(** The rest of the handler after [makeRequest], inside the outer [try]. *)
Lemma try_call_once (prepared : Completion FetchCall) (net : Network) :
  try_catch
    (bind (call_once prepared)
       (fun response => if negb (ok response) then lift (relay_error response)
                        else lift (relay_success response)))
    (fun _ => lift (NextResponse_json (error_message "Internal server error") 500)) net
  = follow (plan_of prepared) net.
Proof.
  rewrite try_catch_lift. unfold bind, call_once, follow, respond, lift.
  destruct prepared as [call |]; simpl; [| reflexivity].
  destruct (net call) as [response |]; simpl; [| reflexivity].
  destruct (negb (ok response)); simpl.
  - now destruct (relay_error response).
  - now destruct (relay_success response).
Qed.

Lemma try_catch_bind_lift {A B} (c : Completion A) (k : A -> Async B)
    (handler : Completion B) (net : Network) :
  try_catch (bind (lift c) k) (fun _ => lift handler) net =
  match c with
  | Normal a => try_catch (k a) (fun _ => lift handler) net
  | Throw _ => ([], handler)
  end.
Proof.
  destruct c as [a | e]; [| reflexivity].
  unfold try_catch. now rewrite bind_lift_Normal.
Qed.

Lemma makeRequest_call_once (model : string) (body : JSValue) (net : Network) :
  makeRequest (if isClaude model then Claude
               else if isDeepseek model then Deepseek
               else OpenAI) body net
  = call_once (if isClaude model then Claude_call body
               else if isDeepseek model then Deepseek_call body
               else OpenAI_call body) net.
Proof.
  destruct (isClaude model); [apply Claude_makeRequest |].
  destruct (isDeepseek model); [apply Deepseek_makeRequest | apply OpenAI_makeRequest].
Qed.

(** The handler follows its plan. *)
Lemma POST_follows_plan (request : NextRequest) (net : Network) :
  POST request net = follow (plan request) net.
Proof.
  unfold POST, POST_with, plan. rewrite try_catch_bind_lift.
  destruct (request_json request) as [body |]; [| reflexivity].
  rewrite try_catch_bind_lift.
  destruct (missing_required_fields body) as [[|] |]; [reflexivity | | reflexivity].
  rewrite try_catch_bind_lift.
  destruct (JS.Get body "model") as [[| | b | n | model | l | fields] |];
    try reflexivity.
  rewrite try_catch_bind_lift, getProvider_initial.
  rewrite <- try_call_once. unfold try_catch, bind.
  now rewrite makeRequest_call_once.
Qed.

(** * Requests of the declared type *)

Section TypedRequest.

Variable r : ChatRequest.

Let payload : JSValue := ChatRequest_toJS r.

Lemma Get_apiKey : JS.Get payload "apiKey" = Normal (JStr (apiKey r)).
Proof. reflexivity. Qed.

Lemma Get_model : JS.Get payload "model" = Normal (JStr (model r)).
Proof. reflexivity. Qed.

Lemma Get_messages : JS.Get payload "messages" = Normal (JArr (map Message_toJS (messages r))).
Proof. reflexivity. Qed.

Lemma Get_temperature : JS.Get payload "temperature" = Normal (JNum (temperature r)).
Proof. unfold payload, ChatRequest_toJS. now destruct (response_format r). Qed.

Lemma Get_max_completion_tokens :
  JS.Get payload "max_completion_tokens" = Normal (JNum (max_completion_tokens r)).
Proof. unfold payload, ChatRequest_toJS. now destruct (response_format r). Qed.

Lemma Get_response_format :
  JS.Get payload "response_format"
  = Normal match response_format r with
           | Some t => ResponseFormat_toJS t
           | None => JUndefined
           end.
Proof. unfold payload, ChatRequest_toJS. now destruct (response_format r). Qed.

Lemma spread_supplied_format :
  spread_response_format match response_format r with
                         | Some t => ResponseFormat_toJS t
                         | None => JUndefined
                         end
  = supplied_format r.
Proof. unfold supplied_format. now destruct (response_format r). Qed.

(** Validation looks at two fields of a typed request only: the key and the
    model must not be empty. *)
Lemma missing_required_fields_typed :
  missing_required_fields payload = Normal ((apiKey r =? "") || (model r =? ""))%string.
Proof.
  unfold missing_required_fields.
  rewrite Get_apiKey, Get_model, Get_messages, Get_temperature, Get_max_completion_tokens.
  simpl. destruct (apiKey r =? "")%string; [reflexivity |].
  destruct (model r =? "")%string; reflexivity.
Qed.

End TypedRequest.

Lemma filter_user_messages (msgs : list Message) :
  JS.filter (role_is "user") (map Message_toJS msgs)
  = Normal (map Message_toJS (List.filter is_user msgs)).
Proof.
  induction msgs as [| [[|] c] msgs IH]; simpl; [reflexivity | |];
    rewrite IH; reflexivity.
Qed.

Lemma find_system_message (msgs : list Message) :
  JS.find (role_is "system") (map Message_toJS msgs)
  = Normal (option_map Message_toJS (List.find is_system msgs)).
Proof.
  induction msgs as [| [[|] c] msgs IH]; simpl; [reflexivity | reflexivity | exact IH].
Qed.

Lemma Claude_requestBody_typed (r : ChatRequest) :
  ClaudeProvider.requestBody (ChatRequest_toJS r) = Normal (Claude_body r).
Proof.
  unfold ClaudeProvider.requestBody, Claude_body, system_prompt.
  rewrite Get_model, Get_max_completion_tokens, Get_temperature, Get_messages.
  cbn [Completion_bind JS.call_filter JS.call_find].
  rewrite filter_user_messages. cbn [Completion_bind]. rewrite find_system_message.
  destruct (List.find is_system (messages r)) as [[ro c] |]; simpl; [| reflexivity].
  unfold JS.or_else. simpl. now destruct (c =? "")%string.
Qed.

Lemma Deepseek_requestBody_typed (r : ChatRequest) :
  DeepseekProvider.requestBody (ChatRequest_toJS r) = Normal (Deepseek_body r).
Proof.
  unfold DeepseekProvider.requestBody.
  rewrite Get_model, Get_max_completion_tokens, Get_temperature, Get_messages,
    Get_response_format.
  simpl. now rewrite spread_supplied_format.
Qed.

Lemma OpenAI_requestBody_typed (r : ChatRequest) :
  OpenAIProvider.requestBody (ChatRequest_toJS r) = Normal (OpenAI_body r).
Proof.
  unfold OpenAIProvider.requestBody.
  rewrite Get_model, Get_max_completion_tokens, Get_temperature, Get_messages,
    Get_response_format.
  simpl. now rewrite spread_supplied_format.
Qed.

Lemma Claude_call_typed (r : ChatRequest) :
  Claude_call (ChatRequest_toJS r) = Normal (Anthropic_request r).
Proof.
  unfold Claude_call, prepare. now rewrite Claude_requestBody_typed, Get_apiKey.
Qed.

Lemma Deepseek_call_typed (r : ChatRequest) :
  Deepseek_call (ChatRequest_toJS r) = Normal (Deepseek_request r).
Proof.
  unfold Deepseek_call, prepare. now rewrite Deepseek_requestBody_typed, Get_apiKey.
Qed.

Lemma OpenAI_call_typed (r : ChatRequest) :
  OpenAI_call (ChatRequest_toJS r) = Normal (OpenAI_request r).
Proof.
  unfold OpenAI_call, prepare. now rewrite OpenAI_requestBody_typed, Get_apiKey.
Qed.

Lemma plan_typed (r : ChatRequest) :
  plan (request_of r) =
  if ((apiKey r =? "") || (model r =? ""))%string then Reject else Call (outbound r).
Proof.
  unfold plan, request_of, request_json, outbound.
  rewrite missing_required_fields_typed, Get_model.
  destruct ((apiKey r =? "") || (model r =? ""))%string; [reflexivity |].
  destruct (isClaude (model r)); [now rewrite Claude_call_typed |].
  destruct (isDeepseek (model r));
    [now rewrite Deepseek_call_typed | now rewrite OpenAI_call_typed].
Qed.

Lemma isClaude_not_empty (model : string) : isClaude model = true -> model <> "".
Proof. intros H ->. discriminate H. Qed.

Lemma POST_typed (r : ChatRequest) (net : Network) :
  apiKey r <> "" -> model r <> "" ->
  POST (request_of r) net = ([outbound r], respond (net (outbound r))).
Proof.
  intros Hkey Hmodel. rewrite POST_follows_plan, plan_typed.
  apply String.eqb_neq in Hkey, Hmodel. now rewrite Hkey, Hmodel.
Qed.

(** * The shape of the outbound request *)

(** C2, amended.  For every request of the declared type that is routed to the
    Anthropic provider, the relay makes one call, to the Anthropic endpoint,
    whose body is the JSON text of: the model, [max_tokens] (the request's
    [max_completion_tokens]), the temperature, the messages of role [user] in
    their order, and [system]: the content of the first message of role
    [system] when there is one and its content is not empty, and
    "You are a helpful assistant." otherwise. *)
Theorem Anthropic_request_body (r : ChatRequest) (net : Network) :
  apiKey r <> "" ->
  isClaude (model r) = true ->
  fst (POST (request_of r) net) =
  [{| url := "https://api.anthropic.com/v1/messages";
      init :=
        JObj [("method", JStr "POST");
              ("headers", JObj [("Content-Type", JStr "application/json");
                                ("x-api-key", JStr (apiKey r));
                                ("anthropic-version", JStr "2023-06-01")]);
              ("body",
               JSON.stringify
                 (JObj [("model", JStr (model r));
                        ("max_tokens", JNum (max_completion_tokens r));
                        ("temperature", JNum (temperature r));
                        ("messages",
                         JArr (map Message_toJS (List.filter is_user (messages r))));
                        ("system",
                         JStr match List.find is_system (messages r) with
                              | Some m => if (content m =? "")%string
                                          then "You are a helpful assistant."
                                          else content m
                              | None => "You are a helpful assistant."
                              end)]))] |}].
Proof.
  intros Hkey Hclaude.
  rewrite (POST_typed r net Hkey (isClaude_not_empty _ Hclaude)).
  unfold outbound. rewrite Hclaude. reflexivity.
Qed.

Lemma Anthropic_request_body_witness :
  fst (POST (request_of terse_request) upstream_ok) =
  [{| url := "https://api.anthropic.com/v1/messages";
      init :=
        JObj [("method", JStr "POST");
              ("headers", JObj [("Content-Type", JStr "application/json");
                                ("x-api-key", JStr "k");
                                ("anthropic-version", JStr "2023-06-01")]);
              ("body",
               JSON.stringify
                 (JObj [("model", JStr "claude-sonnet-4-20250514");
                        ("max_tokens", JNum (num "100"));
                        ("temperature", JNum (num "0.5"));
                        ("messages", JArr [JObj [("role", JStr "user");
                                                 ("content", JStr "Hi")]]);
                        ("system", JStr "Be terse.")]))] |}].
Proof.
  apply (Anthropic_request_body terse_request upstream_ok); [discriminate | reflexivity].
Defined.

(** C2, as stated, fails on a system message with empty content: the claim
    gives the empty string for [system], the relay sends the default. *)
Lemma Anthropic_empty_system_counterexample :
  system_as_claimed (messages empty_system_request) = ""
  /\ fst (POST (request_of empty_system_request) upstream_ok) =
     [{| url := "https://api.anthropic.com/v1/messages";
         init :=
           JObj [("method", JStr "POST");
                 ("headers", JObj [("Content-Type", JStr "application/json");
                                   ("x-api-key", JStr "k");
                                   ("anthropic-version", JStr "2023-06-01")]);
                 ("body",
                  JSON.stringify
                    (JObj [("model", JStr "claude-sonnet-4-20250514");
                           ("max_tokens", JNum (num "100"));
                           ("temperature", JNum (num "0.5"));
                           ("messages", JArr [JObj [("role", JStr "user");
                                                    ("content", JStr "Hi")]]);
                           ("system", JStr "You are a helpful assistant.")]))] |}].
Proof. split; reflexivity. Qed.

(** C5.  For every request of the declared type that is routed to the OpenAI
    or the Deepseek provider, the relay makes one call whose body is the JSON
    text of: the model, all the messages as they are and in their order, the
    temperature, the token bound (named [max_completion_tokens] for OpenAI and
    [max_tokens] for Deepseek) and, exactly when the caller supplied one, the
    [response_format]. *)
Theorem OpenAI_Deepseek_request_body (r : ChatRequest) (net : Network) :
  apiKey r <> "" ->
  model r <> "" ->
  isClaude (model r) = false ->
  fst (POST (request_of r) net) =
  [if isDeepseek (model r) then
     {| url := "https://api.deepseek.com/chat/completions";
        init :=
          JObj [("method", JStr "POST");
                ("headers", JObj [("Content-Type", JStr "application/json");
                                  ("Accept", JStr "application/json");
                                  ("Authorization", JStr ("Bearer " ++ apiKey r)%string)]);
                ("body",
                 JSON.stringify
                   (JObj ([("model", JStr (model r));
                           ("messages", JArr (map Message_toJS (messages r)));
                           ("temperature", JNum (temperature r));
                           ("max_tokens", JNum (max_completion_tokens r))]
                          ++ match response_format r with
                             | Some t => [("response_format", ResponseFormat_toJS t)]
                             | None => []
                             end)))] |}
   else
     {| url := "https://api.openai.com/v1/chat/completions";
        init :=
          JObj [("method", JStr "POST");
                ("headers", JObj [("Content-Type", JStr "application/json");
                                  ("Authorization", JStr ("Bearer " ++ apiKey r)%string)]);
                ("body",
                 JSON.stringify
                   (JObj ([("model", JStr (model r));
                           ("messages", JArr (map Message_toJS (messages r)));
                           ("temperature", JNum (temperature r));
                           ("max_completion_tokens", JNum (max_completion_tokens r))]
                          ++ match response_format r with
                             | Some t => [("response_format", ResponseFormat_toJS t)]
                             | None => []
                             end)))] |}].
Proof.
  intros Hkey Hmodel Hclaude.
  rewrite (POST_typed r net Hkey Hmodel). unfold outbound. rewrite Hclaude.
  now destruct (isDeepseek (model r)).
Qed.

Lemma OpenAI_Deepseek_request_body_witness :
  fst (POST (request_of json_request) upstream_ok) =
  [{| url := "https://api.openai.com/v1/chat/completions";
      init :=
        JObj [("method", JStr "POST");
              ("headers", JObj [("Content-Type", JStr "application/json");
                                ("Authorization", JStr "Bearer k")]);
              ("body",
               JSON.stringify
                 (JObj [("model", JStr "gpt-4.1");
                        ("messages", JArr [JObj [("role", JStr "system");
                                                 ("content", JStr "Be terse.")];
                                           JObj [("role", JStr "user");
                                                 ("content", JStr "Hi")]]);
                        ("temperature", JNum (num "1"));
                        ("max_completion_tokens", JNum (num "2048"));
                        ("response_format", JObj [("type", JStr "json_object")])]))] |}].
Proof.
  apply (OpenAI_Deepseek_request_body json_request upstream_ok);
    [discriminate | discriminate | reflexivity].
Defined.

Example Deepseek_request_example :
  fst (POST (request_of {| apiKey := "k";
                           model := "deepseek-chat";
                           messages := [{| role := user; content := "Hi" |}];
                           response_format := None;
                           temperature := num "1";
                           max_completion_tokens := num "2048" |}) upstream_ok) =
  [{| url := "https://api.deepseek.com/chat/completions";
      init :=
        JObj [("method", JStr "POST");
              ("headers", JObj [("Content-Type", JStr "application/json");
                                ("Accept", JStr "application/json");
                                ("Authorization", JStr "Bearer k")]);
              ("body",
               JSON.stringify
                 (JObj [("model", JStr "deepseek-chat");
                        ("messages", JArr [JObj [("role", JStr "user");
                                                 ("content", JStr "Hi")]]);
                        ("temperature", JNum (num "1"));
                        ("max_tokens", JNum (num "2048"))]))] |}].
Proof. reflexivity. Qed.

(** Whatever the payload, the object the Anthropic provider builds has the
    properties [model], [max_tokens], [temperature], [messages] and [system],
    and no other. *)
Lemma Claude_requestBody_keys (request requestBody : JSValue) :
  ClaudeProvider.requestBody request = Normal requestBody ->
  exists fields,
    requestBody = JObj fields
    /\ map fst fields = ["model"; "max_tokens"; "temperature"; "messages"; "system"].
Proof.
  unfold ClaudeProvider.requestBody. intros H.
  repeat match type of H with
         | Completion_bind ?c _ = _ => destruct c; simpl in H; [| discriminate H]
         end.
  injection H as <-. eexists. split; reflexivity.
Qed.

(** C6.  For every request of the declared type, whatever its
    [response_format], the object that the Anthropic provider builds and hands
    to [JSON.stringify] has the five properties [model], [max_tokens],
    [temperature], [messages] and [system] and no [response_format]; the
    provider makes one call, whose body is the JSON text of that very object,
    and the call is the same whatever [response_format] the request has. *)
Theorem Anthropic_drops_response_format (r : ChatRequest) (net : Network) :
  exists fields,
    fields = [("model", JStr (model r));
              ("max_tokens", JNum (max_completion_tokens r));
              ("temperature", JNum (temperature r));
              ("messages", JArr (map Message_toJS (List.filter is_user (messages r))));
              ("system", JStr (system_prompt (messages r)))]
    /\ ClaudeProvider.requestBody (ChatRequest_toJS r) = Normal (JObj fields)
    /\ fst (makeRequest Claude (ChatRequest_toJS r) net) =
       [{| url := "https://api.anthropic.com/v1/messages";
           init :=
             JObj [("method", JStr "POST");
                   ("headers", JObj [("Content-Type", JStr "application/json");
                                     ("x-api-key", JStr (apiKey r));
                                     ("anthropic-version", JStr "2023-06-01")]);
                   ("body", JSON.stringify (JObj fields))] |}]
    /\ JS.has_property "response_format" fields = false
    /\ ~ In "response_format" (map fst fields)
    /\ forall t,
        makeRequest Claude (ChatRequest_toJS (with_response_format r t)) net
        = makeRequest Claude (ChatRequest_toJS r) net.
Proof.
  assert (Hcall : forall r', makeRequest Claude (ChatRequest_toJS r') net
                             = ([Anthropic_request r'], net (Anthropic_request r'))).
  { intros r'. simpl. rewrite Claude_makeRequest, Claude_call_typed. reflexivity. }
  eexists. split; [reflexivity |]. split; [| split; [| split; [| split]]].
  - apply Claude_requestBody_typed.
  - rewrite Hcall. reflexivity.
  - reflexivity.
  - simpl. intros [H | [H | [H | [H | [H | []]]]]]; discriminate H.
  - intros t. rewrite !Hcall. reflexivity.
Qed.

(** * Validation *)

Lemma not_a_key_absent (name : string) (fields : list (string * JSValue)) :
  ~ In name (map fst fields) -> absent name fields.
Proof.
  unfold absent. induction fields as [| [k x] fields IH]; simpl; [reflexivity |].
  intros H. destruct (String.eqb_spec k name) as [-> | _].
  - destruct H. now left.
  - apply IH. intros Hin. apply H. now right.
Qed.

Lemma absent_missing (name : string) (fields : list (string * JSValue)) :
  absent name fields -> missing name fields.
Proof. unfold absent, missing. now intros ->. Qed.

(** The test of the handler, on an object. *)
Lemma missing_required_fields_spec (fields : list (string * JSValue)) :
  missing_required_fields (JObj fields) = Normal true <->
  missing "apiKey" fields \/ missing "model" fields \/ missing "messages" fields
  \/ absent "temperature" fields \/ absent "max_completion_tokens" fields.
Proof.
  unfold missing_required_fields, missing, absent. simpl.
  destruct (JS.ToBoolean (JS.lookup "apiKey" fields)); simpl; [| tauto].
  destruct (JS.ToBoolean (JS.lookup "model" fields)); simpl; [| tauto].
  destruct (JS.ToBoolean (JS.lookup "messages" fields)); simpl; [| tauto].
  destruct (JS.lookup "temperature" fields); simpl; try tauto;
    destruct (JS.lookup "max_completion_tokens" fields); simpl;
    try tauto; (split; [discriminate |]);
    intros [H | [H | [H | [H | H]]]]; discriminate H.
Qed.

Lemma plan_payload (body : JSValue) :
  plan {| request_json := Normal body |} =
  match missing_required_fields body with
  | Throw _ => Fail
  | Normal true => Reject
  | Normal false =>
      match JS.Get body "model" with
      | Normal (JStr model) =>
          plan_of (if isClaude model then Claude_call body
                   else if isDeepseek model then Deepseek_call body
                   else OpenAI_call body)
      | _ => Fail
      end
  end.
Proof. reflexivity. Qed.

(** C3, amended.  The handler answers 400 with [{error: {message: "Missing
    required fields"}}], and calls no provider, whenever the payload is an
    object in which [apiKey], [model] or [messages] is absent or falsy, or
    [temperature] or [max_completion_tokens] is absent.  The types of the
    fields are not looked at. *)
Theorem missing_fields_rejected (fields : list (string * JSValue)) (net : Network) :
  missing "apiKey" fields \/ missing "model" fields \/ missing "messages" fields
  \/ absent "temperature" fields \/ absent "max_completion_tokens" fields ->
  POST {| request_json := Normal (JObj fields) |} net =
  ([], Normal {| response_status := 400;
                 response_body :=
                   JSON.text (JObj [("error",
                                     JObj [("message", JStr "Missing required fields")])]) |}).
Proof.
  intros H. apply missing_required_fields_spec in H.
  now rewrite POST_follows_plan, plan_payload, H.
Qed.

Lemma missing_fields_rejected_witness :
  POST {| request_json := Normal (JObj no_max_tokens) |} upstream_ok =
  ([], Normal {| response_status := 400;
                 response_body :=
                   JSON.text (JObj [("error",
                                     JObj [("message", JStr "Missing required fields")])]) |}).
Proof.
  apply (missing_fields_rejected no_max_tokens upstream_ok).
  right; right; right; right. reflexivity.
Defined.

(** Conversely, an object that has the five fields is not answered with 400,
    whatever their types. *)
Lemma complete_payload_not_rejected (fields : list (string * JSValue)) (net : Network) :
  ~ (missing "apiKey" fields \/ missing "model" fields \/ missing "messages" fields
     \/ absent "temperature" fields \/ absent "max_completion_tokens" fields) ->
  POST {| request_json := Normal (JObj fields) |} net <> ([], Normal missing_fields_response).
Proof.
  intros H. rewrite <- missing_required_fields_spec in H.
  rewrite POST_follows_plan, plan_payload.
  unfold internal_error_response, missing_fields_response.
  destruct (missing_required_fields (JObj fields)) as [[|] |];
    [now destruct H | | discriminate].
  destruct (JS.Get (JObj fields) "model") as [[| | | | m | |] |]; try discriminate.
  unfold plan_of. destruct (if isClaude m then _ else _); discriminate.
Qed.

(** C3, as stated, fails on a field of the wrong primitive type: the payload
    passes validation, the OpenAI provider is called with it, and the upstream
    answer is relayed. *)
Lemma wrong_type_counterexample :
  JS.lookup "temperature" hot_payload = JStr "hot"
  /\ POST {| request_json := Normal (JObj hot_payload) |} upstream_ok =
     ([{| url := "https://api.openai.com/v1/chat/completions";
          init :=
            JObj [("method", JStr "POST");
                  ("headers", JObj [("Content-Type", JStr "application/json");
                                    ("Authorization", JStr "Bearer k")]);
                  ("body",
                   JSON.stringify
                     (JObj [("model", JStr "gpt-4.1");
                            ("messages", JArr [JObj [("role", JStr "user");
                                                     ("content", JStr "Hi")]]);
                            ("temperature", JStr "hot");
                            ("max_completion_tokens", JNum (num "100"))]))] |}],
      Normal {| response_status := 200; response_body := "[1,2]" |}).
Proof. split; reflexivity. Qed.

(** A payload that is [null] is answered with 500, not 400. *)
Example null_payload :
  POST {| request_json := Normal JNull |} upstream_ok = ([], Normal internal_error_response).
Proof. reflexivity. Qed.

(** The first revision of the relay does not know [max_completion_tokens]:
    the payload without it goes to OpenAI. *)
Example OpenAIOnly_no_max_tokens :
  fst (OpenAIOnly.POST {| request_json := Normal (JObj no_max_tokens) |} upstream_ok) =
  [{| url := "https://api.openai.com/v1/chat/completions";
      init :=
        JObj [("method", JStr "POST");
              ("headers", JObj [("Content-Type", JStr "application/json");
                                ("Authorization", JStr "Bearer k")]);
              ("body",
               JSON.stringify
                 (JObj [("model", JStr "gpt-4.1");
                        ("messages", JArr [JObj [("role", JStr "user");
                                                 ("content", JStr "Hi")]]);
                        ("response_format", JUndefined);
                        ("temperature", JNum (num "1"))]))] |}].
Proof. reflexivity. Qed.

(** * Relaying the upstream answer *)

(** One inbound request makes at most one outbound call. *)
Lemma POST_at_most_one_call (request : NextRequest) (net : Network) :
  (length (fst (POST request net)) <= 1)%nat.
Proof. rewrite POST_follows_plan. destruct (plan request); simpl; lia. Qed.

(** The handler always answers: no exception leaves it. *)
Lemma POST_never_throws (request : NextRequest) (net : Network) :
  exists answer, snd (POST request net) = Normal answer.
Proof.
  rewrite POST_follows_plan. destruct (plan request) as [| | call]; simpl; eauto.
  unfold respond. destruct (Completion_bind _ _); eauto.
Qed.

(** When the handler called upstream and got a response, its answer is made
    from that response. *)
Lemma POST_answer (request : NextRequest) (net : Network) (call : FetchCall)
    (response : Response) :
  fst (POST request net) = [call] ->
  net call = Normal response ->
  snd (POST request net) = respond (Normal response).
Proof.
  rewrite POST_follows_plan. destruct (plan request) as [| | call']; simpl;
    try discriminate.
  intros [= ->] ->. reflexivity.
Qed.

(** C4, amended.  For every upstream response with a non-success status that
    a response with a body can carry (300-599 other than 304), the relay
    answers with the status of the upstream and the body [{error: E}], where:
    when the upstream body cannot be read, E is [{message: "HTTP <status>:
    <statusText>"}]; when it is not JSON, E carries that message and
    [details], which is "Received HTML error page instead of JSON" if the body
    contains "<!DOCTYPE" and the first 200 characters of the body otherwise;
    when it is JSON other than [null], E is its [error] property if that is
    truthy, and [{message: "HTTP <status>: <statusText>"}] if not. *)
Theorem upstream_error_relayed (request : NextRequest) (net : Network) (call : FetchCall)
    (response : Response) :
  fst (POST request net) = [call] ->
  net call = Normal response ->
  ok response = false ->
  relayable (status response) = true ->
  (forall e, body response = Throw e ->
     snd (POST request net) =
     Normal {| response_status := status response;
               response_body :=
                 JSON.text (JObj [("error",
                              JObj [("message", JStr (status_line response))])]) |})
  /\ (forall t, body response = Normal t -> json t = None ->
        snd (POST request net) =
        Normal {| response_status := status response;
                  response_body :=
                    JSON.text
                      (JObj [("error",
                              JObj [("message", JStr (status_line response));
                                    ("details",
                                     JStr (if JS.includes (chars t) "<!DOCTYPE"
                                           then "Received HTML error page instead of JSON"
                                           else String.substring 0 200 (chars t)))])]) |})
  /\ (forall t v error, body response = Normal t -> json t = Some v ->
        JS.Get v "error" = Normal error ->
        snd (POST request net) =
        Normal {| response_status := status response;
                  response_body :=
                    JSON.text
                      (JObj [("error",
                              if JS.ToBoolean error then error
                              else JObj [("message", JStr (status_line response))])]) |}).
Proof.
  intros Hcall Hnet Hok Hstatus.
  rewrite (POST_answer request net call response Hcall Hnet).
  unfold respond, relay_error, errorData, Response_text, JSON_parse.
  cbn [Completion_bind]. rewrite Hok. cbn [negb].
  split; [| split].
  - intros e ->. cbn [catch Completion_bind error_message JS.Get JS.lookup String.eqb
                        Ascii.eqb Bool.eqb JS.or_else JS.ToBoolean].
    now rewrite NextResponse_json_object.
  - intros t -> Hjson. cbn [catch Completion_bind]. rewrite Hjson.
    cbn [catch Completion_bind JS.Get JS.lookup String.eqb Ascii.eqb Bool.eqb JS.or_else
           JS.ToBoolean].
    now rewrite NextResponse_json_object.
  - intros t v error -> Hjson Herror. cbn [catch Completion_bind].
    rewrite Hjson. cbn [catch Completion_bind]. rewrite Herror.
    cbn [Completion_bind]. unfold JS.or_else.
    now rewrite NextResponse_json_object.
Qed.

Lemma upstream_error_relayed_witness :
  snd (POST (request_of json_request) (fun _ => Normal unauthorized)) =
  Normal {| response_status := 401;
            response_body :=
              JSON.text (JObj [("error",
                           JObj [("message", JStr "Incorrect API key provided")])]) |}.
Proof.
  refine (proj2 (proj2 (upstream_error_relayed (request_of json_request)
                          (fun _ => Normal unauthorized) (outbound json_request) unauthorized
                          _ _ _ _))
            _ _ (JObj [("message", JStr "Incorrect API key provided")]) _ _ _);
    reflexivity.
Defined.

(** C4, as stated, fails on an HTML error page: the answer carries the status
    line and a fixed sentence, which is no part of the upstream body. *)
Lemma html_error_counterexample :
  snd (POST (request_of json_request) (fun _ => Normal bad_gateway)) =
  Normal {| response_status := 502;
            response_body :=
              JSON.text
                (JObj [("error",
                        JObj [("message", JStr "HTTP 502: Bad Gateway");
                              ("details",
                               JStr "Received HTML error page instead of JSON")])]) |}
  /\ JS.includes "<!DOCTYPE html><html><body>Bad Gateway</body></html>"
       "Received HTML error page instead of JSON" = false.
Proof. split; reflexivity. Qed.

(** An upstream error whose body is the JSON text [null] is answered with 500,
    whatever the status of the upstream. *)
Example null_error_body :
  snd (POST (request_of json_request)
         (fun _ => Normal {| status := 404; statusText := "Not Found";
                             body := Normal {| chars := "null"; json := Some JNull |} |}))
  = Normal internal_error_response.
Proof. reflexivity. Qed.

(** A status that no response with a body can carry is not relayed: the
    handler answers 500. *)
Example not_modified :
  snd (POST (request_of json_request)
         (fun _ => Normal {| status := 304; statusText := "Not Modified";
                             body := Normal {| chars := ""; json := None |} |}))
  = Normal internal_error_response.
Proof. reflexivity. Qed.

(** A body that is not JSON and not HTML is quoted, up to 200 characters. *)
Example plain_error_body :
  snd (POST (request_of json_request)
         (fun _ => Normal {| status := 503; statusText := "Service Unavailable";
                             body := Normal {| chars := "upstream connect error";
                                               json := None |} |}))
  = Normal {| response_status := 503;
              response_body :=
                JSON.text
                  (JObj [("error",
                          JObj [("message", JStr "HTTP 503: Service Unavailable");
                                ("details", JStr "upstream connect error")])]) |}.
Proof. reflexivity. Qed.

Lemma substring0_length (n : nat) (s : string) :
  (String.length (String.substring 0 n s) <= n)%nat.
Proof.
  revert s. induction n as [| n IH]; intros [| c s]; simpl; try lia.
  specialize (IH s). lia.
Qed.

(** C7, amended.  For every upstream response with a success status whose
    body is JSON, the relay answers 200 with the JSON text of the parsed value
    ([JSON.stringify] of [JSON.parse] of the body): the same JSON value, not
    necessarily the same characters.  ([JSON.parse] never gives [undefined].) *)
Theorem upstream_success_relayed (request : NextRequest) (net : Network) (call : FetchCall)
    (response : Response) (t : BodyText) (data : JSValue) :
  fst (POST request net) = [call] ->
  net call = Normal response ->
  ok response = true ->
  body response = Normal t ->
  json t = Some data ->
  data <> JUndefined ->
  snd (POST request net) =
  Normal {| response_status := 200; response_body := JSON.text data |}.
Proof.
  intros Hcall Hnet Hok Hbody Hjson Hdata.
  rewrite (POST_answer request net call response Hcall Hnet).
  unfold respond, relay_success, Response_text, JSON_parse.
  cbn [Completion_bind]. rewrite Hok, Hbody. cbn [negb Completion_bind]. rewrite Hjson.
  destruct data; try reflexivity. now destruct Hdata.
Qed.

Lemma upstream_success_relayed_witness :
  snd (POST (request_of json_request) upstream_ok) =
  Normal {| response_status := 200;
            response_body := JSON.text (JArr [JNum (num "1"); JNum (num "2")]) |}.
Proof.
  apply (upstream_success_relayed (request_of json_request) upstream_ok
           (outbound json_request) one_two
           {| chars := "[1, 2]"; json := Some (JArr [JNum (num "1"); JNum (num "2")]) |});
    try reflexivity; discriminate.
Defined.

(** C7, as stated, fails on a body with white space: the upstream sends
    [[1, 2]], the relay answers [[1,2]]. *)
Lemma not_byte_for_byte_counterexample :
  snd (POST (request_of json_request) upstream_ok) =
  Normal {| response_status := 200; response_body := "[1,2]" |}
  /\ body one_two =
     Normal {| chars := "[1, 2]"; json := Some (JArr [JNum (num "1"); JNum (num "2")]) |}
  /\ ("[1,2]" =? "[1, 2]")%string = false.
Proof. repeat split. Qed.

(** C8.  For every upstream response with a success status whose body is not
    JSON, the relay answers 502 with [{error: {message: "Invalid JSON response
    from LLM provider"}}]. *)
Theorem invalid_json_answered_502 (request : NextRequest) (net : Network) (call : FetchCall)
    (response : Response) (t : BodyText) :
  fst (POST request net) = [call] ->
  net call = Normal response ->
  ok response = true ->
  body response = Normal t ->
  json t = None ->
  snd (POST request net) =
  Normal {| response_status := 502;
            response_body :=
              JSON.text (JObj [("error",
                           JObj [("message",
                                  JStr "Invalid JSON response from LLM provider")])]) |}.
Proof.
  intros Hcall Hnet Hok Hbody Hjson.
  rewrite (POST_answer request net call response Hcall Hnet).
  unfold respond, relay_success, Response_text, JSON_parse.
  cbn [Completion_bind]. rewrite Hok, Hbody. cbn [negb Completion_bind]. rewrite Hjson.
  reflexivity.
Qed.

Lemma invalid_json_answered_502_witness :
  snd (POST (request_of json_request) (fun _ => Normal html_page)) =
  Normal {| response_status := 502;
            response_body :=
              JSON.text (JObj [("error",
                           JObj [("message",
                                  JStr "Invalid JSON response from LLM provider")])]) |}.
Proof.
  apply (invalid_json_answered_502 (request_of json_request) (fun _ => Normal html_page)
           (outbound json_request) html_page
           {| chars := "<html><body>It works!</body></html>"; json := None |});
    reflexivity.
Defined.

(** A successful body that cannot be read is answered with 502 as well. *)
Lemma unreadable_body_answered_502 (request : NextRequest) (net : Network) (call : FetchCall)
    (response : Response) (e : JSError) :
  fst (POST request net) = [call] ->
  net call = Normal response ->
  ok response = true ->
  body response = Throw e ->
  snd (POST request net) = Normal invalid_json_response.
Proof.
  intros Hcall Hnet Hok Hbody.
  rewrite (POST_answer request net call response Hcall Hnet).
  unfold respond, relay_success, Response_text.
  cbn [Completion_bind]. rewrite Hok, Hbody. reflexivity.
Qed.

(** * The inline revision and the Strategy revision *)

Lemma Inline_missing_required_fields (body : JSValue) :
  Inline.missing_required_fields body = missing_required_fields body.
Proof. reflexivity. Qed.

(** The inline chain of tests ends in the call of the provider that the
    factory selects. *)
Lemma Inline_call_provider (body : JSValue) (net : Network) :
  Inline.call_provider body net =
  match JS.Get body "model" with
  | Normal (JStr model) =>
      call_once (if isClaude model then Claude_call body
                 else if isDeepseek model then Deepseek_call body
                 else OpenAI_call body) net
  | Normal _ => ([], Throw TypeError)
  | Throw e => ([], Throw e)
  end.
Proof.
  unfold Inline.call_provider.
  destruct (JS.Get body "model") as [model | e] eqn:Hmodel;
    [rewrite bind_lift_Normal | reflexivity].
  destruct model as [| | b | n | model | l | fields]; try reflexivity.
  unfold Inline.isClaudeModel, Inline.isDeepseekModel, JS.startsWith.
  rewrite bind_lift_Normal. fold (isClaude model).
  destruct (isClaude model).
  - change (Inline.claudeRequestBody body) with (ClaudeProvider.requestBody body).
    unfold Claude_call, prepare, call_once, bind, lift, fetch.
    destruct (ClaudeProvider.requestBody body); simpl; [| reflexivity].
    destruct (JS.Get body "apiKey"); reflexivity.
  - rewrite bind_lift_Normal, bind_lift_Normal. fold (isDeepseek model).
    destruct (isDeepseek model).
    + change (Inline.deepseekRequestBody body) with (DeepseekProvider.requestBody body).
      unfold Deepseek_call, prepare, call_once, bind, lift, fetch.
      destruct (DeepseekProvider.requestBody body); simpl; [| reflexivity].
      destruct (JS.Get body "apiKey") as [apiKey |]; simpl; [| reflexivity].
      destruct (JS.ToString apiKey); reflexivity.
    + change (Inline.openAIRequestBody body) with (OpenAIProvider.requestBody body).
      unfold OpenAI_call, prepare, call_once, bind, lift, fetch.
      destruct (OpenAIProvider.requestBody body); simpl; [| reflexivity].
      destruct (JS.Get body "apiKey") as [apiKey |]; simpl; [| reflexivity].
      destruct (JS.ToString apiKey); reflexivity.
Qed.

Lemma Strategy_POST_calls (request : NextRequest) (net : Network) :
  fst (POST request net) = calls_of (plan request).
Proof. rewrite POST_follows_plan. now destruct (plan request). Qed.

Lemma Inline_POST_calls (request : NextRequest) (net : Network) :
  fst (Inline.POST request net) = calls_of (plan request).
Proof.
  unfold Inline.POST, plan. rewrite try_catch_lift. cbn [fst].
  destruct (request_json request) as [body |]; [| reflexivity].
  rewrite bind_lift_Normal, Inline_missing_required_fields.
  destruct (missing_required_fields body) as [[|] |]; [reflexivity | | reflexivity].
  rewrite bind_lift_Normal. unfold bind. rewrite Inline_call_provider.
  destruct (JS.Get body "model") as [[| | b | n | model | l | fields] |]; try reflexivity.
  unfold call_once, plan_of, lift.
  destruct (if isClaude model then _ else _) as [call |]; [| reflexivity].
  destruct (net call) as [response |]; [| reflexivity].
  destruct (negb (ok response)).
  - now destruct (Inline.relay_error response).
  - now destruct (Inline.relay_success response).
Qed.

(** The two revisions make the same outbound calls, for every inbound request
    and every behaviour of the network. *)
Lemma Inline_Strategy_same_calls (request : NextRequest) (net : Network) :
  fst (Inline.POST request net) = fst (POST request net).
Proof. now rewrite Inline_POST_calls, Strategy_POST_calls. Qed.

(** C10.  For every request of the declared type that passes validation, the
    inline revision and the Strategy revision each make exactly one outbound
    call, and it is the same call: the same endpoint, the same headers (with
    the key and, for Anthropic, the version) and the same JSON body. *)
Theorem Inline_Strategy_equivalent (r : ChatRequest) (net : Network) :
  apiKey r <> "" ->
  model r <> "" ->
  exists call,
    fst (Inline.POST (request_of r) net) = [call]
    /\ fst (Strategy.POST (request_of r) net) = [call]
    /\ call = (if isClaude (model r) then Anthropic_request r
               else if isDeepseek (model r) then Deepseek_request r
               else OpenAI_request r).
Proof.
  intros Hkey Hmodel. exists (outbound r).
  rewrite Inline_POST_calls, Strategy_POST_calls, plan_typed.
  apply String.eqb_neq in Hkey, Hmodel. rewrite Hkey, Hmodel. now repeat split.
Qed.

Lemma Inline_Strategy_equivalent_witness :
  exists call,
    fst (Inline.POST (request_of terse_request) upstream_ok) = [call]
    /\ fst (Strategy.POST (request_of terse_request) upstream_ok) = [call]
    /\ call = Anthropic_request terse_request.
Proof.
  apply (Inline_Strategy_equivalent terse_request upstream_ok); discriminate.
Defined.

(** The two revisions differ after the call: an error body that is not JSON
    is answered with 500 by the inline revision, and with the upstream status
    by the Strategy revision. *)
Example Inline_html_error :
  snd (Inline.POST (request_of json_request) (fun _ => Normal bad_gateway))
  = Normal internal_error_response
  /\ snd (Strategy.POST (request_of json_request) (fun _ => Normal bad_gateway))
     = Normal {| response_status := 502;
                 response_body :=
                   JSON.text
                     (JObj [("error",
                             JObj [("message", JStr "HTTP 502: Bad Gateway");
                                   ("details",
                                    JStr "Received HTML error page instead of JSON")])]) |}.
Proof. split; reflexivity. Qed.

(** * Further properties of the relay *)

(** X1.  Whatever the inbound request and whatever the network does, the
    handler ends with an answer (no exception leaves it) and has made at most
    one outbound call. *)
Theorem POST_answers_after_one_call (request : NextRequest) (net : Network) :
  (exists answer, snd (POST request net) = Normal answer)
  /\ (length (fst (POST request net)) <= 1)%nat.
Proof.
  rewrite POST_follows_plan. destruct (plan request) as [| | call]; simpl.
  - split; [eauto | lia].
  - split; [eauto | lia].
  - split; [| lia]. unfold respond. destruct (Completion_bind _ _); eauto.
Qed.

(** X2.  On a payload that is an object, the handler answers 400 "Missing
    required fields" without calling a provider exactly when [apiKey], [model]
    or [messages] is absent or falsy, or [temperature] or
    [max_completion_tokens] is absent: an object that has the five fields is
    never rejected, whatever their types. *)
Theorem rejected_exactly_when_missing (fields : list (string * JSValue)) (net : Network) :
  POST {| request_json := Normal (JObj fields) |} net = ([], Normal missing_fields_response)
  <->
  (missing "apiKey" fields \/ missing "model" fields \/ missing "messages" fields
   \/ absent "temperature" fields \/ absent "max_completion_tokens" fields).
Proof.
  rewrite <- missing_required_fields_spec, POST_follows_plan, plan_payload.
  unfold follow, internal_error_response, missing_fields_response.
  destruct (missing_required_fields (JObj fields)) as [[|] |].
  - tauto.
  - split; [| discriminate].
    destruct (JS.Get (JObj fields) "model") as [[| | | | m | |] |]; try discriminate.
    unfold plan_of. destruct (if isClaude m then _ else _); discriminate.
  - split; discriminate.
Qed.

(** X3.  A payload that is not JSON, and the payload [null], are answered with
    500 "Internal server error", and no provider is called. *)
Theorem unreadable_payload_answered_500 (e : JSError) (net : Network) :
  POST {| request_json := Throw e |} net =
  ([], Normal {| response_status := 500;
                 response_body := JSON.text (error_message "Internal server error") |})
  /\ POST {| request_json := Normal JNull |} net =
     ([], Normal {| response_status := 500;
                    response_body := JSON.text (error_message "Internal server error") |}).
Proof. split; rewrite POST_follows_plan; reflexivity. Qed.

(** X4.  A payload that passes validation but whose [model] is not a string is
    answered with 500, and no provider is called: [startsWith] is a method of
    strings only. *)
Theorem model_not_a_string_answered_500 (fields : list (string * JSValue)) (net : Network) :
  missing_required_fields (JObj fields) = Normal false ->
  (forall s, JS.lookup "model" fields <> JStr s) ->
  POST {| request_json := Normal (JObj fields) |} net = ([], Normal internal_error_response).
Proof.
  intros Hvalid Hmodel. rewrite POST_follows_plan, plan_payload, Hvalid.
  cbn [JS.Get]. destruct (JS.lookup "model" fields); try reflexivity.
  now destruct (Hmodel s).
Qed.

Lemma model_not_a_string_answered_500_witness :
  POST {| request_json := Normal (JObj numeric_model) |} upstream_ok
  = ([], Normal internal_error_response).
Proof.
  apply (model_not_a_string_answered_500 numeric_model upstream_ok);
    [reflexivity | discriminate].
Defined.

(** X5.  When the outbound call does not complete, the handler answers 500
    "Internal server error"; it has made that one call and does not try
    again. *)
Theorem network_failure_answered_500 (request : NextRequest) (net : Network)
    (call : FetchCall) (e : JSError) :
  fst (POST request net) = [call] ->
  net call = Throw e ->
  POST request net = ([call], Normal internal_error_response).
Proof.
  rewrite POST_follows_plan. destruct (plan request) as [| | call']; simpl;
    try discriminate.
  intros [= ->] ->. reflexivity.
Qed.

Lemma network_failure_answered_500_witness :
  POST (request_of json_request) unreachable
  = ([outbound json_request], Normal internal_error_response).
Proof.
  apply (network_failure_answered_500 (request_of json_request) unreachable
           (outbound json_request) TypeError); reflexivity.
Defined.

Lemma respond_status (response : Response) (answer : NextResponse) :
  respond (Normal response) = Normal answer ->
  response_status answer = 200%N \/ response_status answer = 500%N
  \/ response_status answer = 502%N
  \/ (ok response = false /\ response_status answer = status response).
Proof.
  unfold respond. cbn [Completion_bind].
  destruct (ok response) eqn:Hok; cbn [negb].
  - unfold relay_success.
    destruct (Completion_bind _ _) as [data |].
    + unfold NextResponse_json. destruct (JSON.stringify data); cbn;
        intros [= <-]; auto.
    + cbn. intros [= <-]. auto.
  - unfold relay_error.
    destruct (errorData response) as [data |]; cbn [Completion_bind];
      [| intros [= <-]; auto].
    destruct (JS.Get data "error") as [error |]; cbn [Completion_bind];
      [| intros [= <-]; auto].
    unfold NextResponse_json. cbn [JSON.stringify].
    destruct (_ || _)%bool; [intros [= <-]; auto |].
    destruct (null_body_status _); intros [= <-]; auto.
Qed.

(** X6.  The status of the handler's answer is 200, 400, 500 or 502, or it is
    the status of a non-success response that the upstream gave to the
    handler's call. *)
Theorem answer_status (request : NextRequest) (net : Network) (answer : NextResponse) :
  snd (POST request net) = Normal answer ->
  In (response_status answer) [200; 400; 500; 502]%N
  \/ exists call response,
       fst (POST request net) = [call]
       /\ net call = Normal response
       /\ ok response = false
       /\ response_status answer = status response.
Proof.
  rewrite POST_follows_plan. destruct (plan request) as [| | call]; simpl.
  - intros [= <-]. auto.
  - intros [= <-]. auto.
  - destruct (net call) as [response |] eqn:Hnet.
    + intros H. apply respond_status in H.
      destruct H as [H | [H | [H | [Hok H]]]]; [auto | auto | auto 6 |].
      right. now exists call, response.
    + intros [= <-]. auto.
Qed.

Lemma answer_status_witness :
  In 429%N [200; 400; 500; 502]%N
  \/ exists call response,
       fst (POST (request_of json_request) (fun _ => Normal rate_limited)) = [call]
       /\ Normal rate_limited = Normal response
       /\ ok response = false
       /\ 429%N = status response.
Proof.
  apply (answer_status (request_of json_request) (fun _ => Normal rate_limited)
           {| response_status := 429;
              response_body := JSON.text (error_message "Rate limit reached") |}).
  reflexivity.
Defined.

Lemma Deepseek_requestBody_keys (request requestBody : JSValue) :
  DeepseekProvider.requestBody request = Normal requestBody ->
  exists fields,
    requestBody = JObj fields /\ incl (map fst fields) body_properties.
Proof.
  unfold DeepseekProvider.requestBody, spread_response_format. intros H.
  repeat match type of H with
         | Completion_bind ?c _ = _ => destruct c; simpl in H; [| discriminate H]
         end.
  injection H as <-. eexists. split; [reflexivity |].
  destruct (JS.ToBoolean _); simpl; unfold body_properties; intros k Hk; simpl in *;
    intuition.
Qed.

Lemma OpenAI_requestBody_keys (request requestBody : JSValue) :
  OpenAIProvider.requestBody request = Normal requestBody ->
  exists fields,
    requestBody = JObj fields /\ incl (map fst fields) body_properties.
Proof.
  unfold OpenAIProvider.requestBody, spread_response_format. intros H.
  repeat match type of H with
         | Completion_bind ?c _ = _ => destruct c; simpl in H; [| discriminate H]
         end.
  injection H as <-. eexists. split; [reflexivity |].
  destruct (JS.ToBoolean _); simpl; unfold body_properties; intros k Hk; simpl in *;
    intuition.
Qed.

Lemma not_a_body_property : ~ In "apiKey" body_properties.
Proof. unfold body_properties. simpl. intuition discriminate. Qed.

Lemma prepared_call (requestBody : JSValue -> Completion JSValue) (u : string)
    (headers : JSValue -> Completion (list (string * JSValue))) (request : JSValue)
    (call : FetchCall) :
  prepare requestBody u headers request = Normal call ->
  exists built apiKey hs,
    requestBody request = Normal built
    /\ JS.Get request "apiKey" = Normal apiKey
    /\ headers apiKey = Normal hs
    /\ call = {| url := u;
                 init := JObj [("method", JStr "POST");
                               ("headers", JObj hs);
                               ("body", JSON.stringify built)] |}.
Proof.
  unfold prepare. intros H.
  destruct (requestBody request) as [built |]; [| discriminate H].
  cbn [Completion_bind] in H.
  destruct (JS.Get request "apiKey") as [k |]; [| discriminate H].
  cbn [Completion_bind] in H.
  destruct (headers k) as [hs |] eqn:Hhs; [| discriminate H].
  injection H as <-. exists built, k, hs. repeat split. exact Hhs.
Qed.

Lemma Claude_requestBody_properties (request requestBody : JSValue) :
  ClaudeProvider.requestBody request = Normal requestBody ->
  exists fields,
    requestBody = JObj fields /\ incl (map fst fields) body_properties.
Proof.
  intros H. destruct (Claude_requestBody_keys request requestBody H) as (fields & -> & Hk).
  exists fields. split; [reflexivity |]. rewrite Hk. unfold body_properties.
  intros k Hin. simpl in *. intuition.
Qed.

Lemma bearer_headers (front : list (string * JSValue)) (apiKey : JSValue)
    (hs : list (string * JSValue)) :
  (key <- JS.ToString apiKey ;;
   Normal (front ++ [("Authorization", JStr ("Bearer " ++ key)%string)]))%completion
  = Normal hs ->
  exists key,
    JS.ToString apiKey = Normal key
    /\ hs = front ++ [("Authorization", JStr ("Bearer " ++ key)%string)].
Proof.
  destruct (JS.ToString apiKey) as [key |]; cbn [Completion_bind]; [| discriminate].
  intros [= <-]. exists key. split; reflexivity.
Qed.

(** X7.  Every outbound call of the handler is the call of the provider that
    the model selects, made from an object payload: it goes to the endpoint of
    that vendor with the method POST; its body is the JSON text of the object
    that the provider built from the payload, whose properties are among
    [model], [messages], [temperature], [max_tokens], [max_completion_tokens],
    [system] and [response_format]; and the payload's [apiKey] travels in a
    header ([x-api-key] for Anthropic, [Authorization: Bearer] for Deepseek
    and OpenAI) and is never a property of the body. *)
Theorem outbound_call_shape (request : NextRequest) (net : Network) (call : FetchCall) :
  fst (POST request net) = [call] ->
  exists payload m fields,
    request_json request = Normal (JObj payload)
    /\ JS.lookup "model" payload = JStr m
    /\ incl (map fst fields) body_properties
    /\ ~ In "apiKey" (map fst fields)
    /\ ((isClaude m = true
         /\ ClaudeProvider.requestBody (JObj payload) = Normal (JObj fields)
         /\ call =
            {| url := "https://api.anthropic.com/v1/messages";
               init :=
                 JObj [("method", JStr "POST");
                       ("headers", JObj [("Content-Type", JStr "application/json");
                                         ("x-api-key", JS.lookup "apiKey" payload);
                                         ("anthropic-version", JStr "2023-06-01")]);
                       ("body", JSON.stringify (JObj fields))] |})
        \/ (isClaude m = false /\ isDeepseek m = true
            /\ DeepseekProvider.requestBody (JObj payload) = Normal (JObj fields)
            /\ exists key,
                 JS.ToString (JS.lookup "apiKey" payload) = Normal key
                 /\ call =
                    {| url := "https://api.deepseek.com/chat/completions";
                       init :=
                         JObj [("method", JStr "POST");
                               ("headers",
                                JObj [("Content-Type", JStr "application/json");
                                      ("Accept", JStr "application/json");
                                      ("Authorization", JStr ("Bearer " ++ key)%string)]);
                               ("body", JSON.stringify (JObj fields))] |})
        \/ (isClaude m = false /\ isDeepseek m = false
            /\ OpenAIProvider.requestBody (JObj payload) = Normal (JObj fields)
            /\ exists key,
                 JS.ToString (JS.lookup "apiKey" payload) = Normal key
                 /\ call =
                    {| url := "https://api.openai.com/v1/chat/completions";
                       init :=
                         JObj [("method", JStr "POST");
                               ("headers",
                                JObj [("Content-Type", JStr "application/json");
                                      ("Authorization", JStr ("Bearer " ++ key)%string)]);
                               ("body", JSON.stringify (JObj fields))] |})).
Proof.
  rewrite POST_follows_plan. unfold plan.
  destruct (request_json request) as [[| | | | | | payload] |]; try discriminate.
  destruct (missing_required_fields (JObj payload)) as [[|] |]; try discriminate.
  cbn [JS.Get].
  destruct (JS.lookup "model" payload) as [| | | | m | |] eqn:Hmodel; try discriminate.
  unfold plan_of.
  destruct (if isClaude m then _ else _) as [call' |] eqn:Hcall; simpl; [| discriminate].
  intros [= ->]. exists payload, m.
  destruct (isClaude m) eqn:HClaude; [| destruct (isDeepseek m) eqn:HDeepseek];
    apply prepared_call in Hcall;
    destruct Hcall as (built & k & hs & Hbuilt & Hk & Hhs & ->);
    cbn [JS.Get] in Hk; injection Hk as <-.
  - destruct (Claude_requestBody_properties _ _ Hbuilt) as (fields & -> & Hincl).
    injection Hhs as <-. exists fields.
    repeat split; try assumption; try reflexivity.
    + intros Hin. exact (not_a_body_property (Hincl _ Hin)).
    + left. repeat split; assumption.
  - destruct (Deepseek_requestBody_keys _ _ Hbuilt) as (fields & -> & Hincl).
    apply (bearer_headers [("Content-Type", JStr "application/json");
                           ("Accept", JStr "application/json")]) in Hhs.
    destruct Hhs as (key & Hkey & ->). exists fields.
    repeat split; try assumption; try reflexivity.
    + intros Hin. exact (not_a_body_property (Hincl _ Hin)).
    + right. left. repeat split; try assumption. now exists key.
  - destruct (OpenAI_requestBody_keys _ _ Hbuilt) as (fields & -> & Hincl).
    apply (bearer_headers [("Content-Type", JStr "application/json")]) in Hhs.
    destruct Hhs as (key & Hkey & ->). exists fields.
    repeat split; try assumption; try reflexivity.
    + intros Hin. exact (not_a_body_property (Hincl _ Hin)).
    + right. right. repeat split; try assumption. now exists key.
Qed.

Lemma outbound_call_shape_witness :
  exists payload m fields,
    request_json (request_of json_request) = Normal (JObj payload)
    /\ JS.lookup "model" payload = JStr m
    /\ incl (map fst fields) body_properties
    /\ ~ In "apiKey" (map fst fields)
    /\ ((isClaude m = true
         /\ ClaudeProvider.requestBody (JObj payload) = Normal (JObj fields)
         /\ outbound json_request =
            {| url := "https://api.anthropic.com/v1/messages";
               init :=
                 JObj [("method", JStr "POST");
                       ("headers", JObj [("Content-Type", JStr "application/json");
                                         ("x-api-key", JS.lookup "apiKey" payload);
                                         ("anthropic-version", JStr "2023-06-01")]);
                       ("body", JSON.stringify (JObj fields))] |})
        \/ (isClaude m = false /\ isDeepseek m = true
            /\ DeepseekProvider.requestBody (JObj payload) = Normal (JObj fields)
            /\ exists key,
                 JS.ToString (JS.lookup "apiKey" payload) = Normal key
                 /\ outbound json_request =
                    {| url := "https://api.deepseek.com/chat/completions";
                       init :=
                         JObj [("method", JStr "POST");
                               ("headers",
                                JObj [("Content-Type", JStr "application/json");
                                      ("Accept", JStr "application/json");
                                      ("Authorization", JStr ("Bearer " ++ key)%string)]);
                               ("body", JSON.stringify (JObj fields))] |})
        \/ (isClaude m = false /\ isDeepseek m = false
            /\ OpenAIProvider.requestBody (JObj payload) = Normal (JObj fields)
            /\ exists key,
                 JS.ToString (JS.lookup "apiKey" payload) = Normal key
                 /\ outbound json_request =
                    {| url := "https://api.openai.com/v1/chat/completions";
                       init :=
                         JObj [("method", JStr "POST");
                               ("headers",
                                JObj [("Content-Type", JStr "application/json");
                                      ("Authorization", JStr ("Bearer " ++ key)%string)]);
                               ("body", JSON.stringify (JObj fields))] |})).
Proof.
  apply (outbound_call_shape (request_of json_request) upstream_ok (outbound json_request)).
  reflexivity.
Defined.

Lemma lookup_remove_other (name removed : string) (fields : list (string * JSValue)) :
  name <> removed ->
  JS.lookup name (remove_property removed fields) = JS.lookup name fields.
Proof.
  intros Hne. induction fields as [| [k x] fields IH]; simpl; [reflexivity |].
  destruct (String.eqb_spec k removed) as [-> | Hk]; simpl.
  - rewrite IH. apply not_eq_sym, String.eqb_neq in Hne. now rewrite Hne.
  - now rewrite IH.
Qed.

Lemma lookup_removed (name : string) (fields : list (string * JSValue)) :
  JS.lookup name (remove_property name fields) = JUndefined.
Proof.
  induction fields as [| [k x] fields IH]; simpl; [reflexivity |].
  destruct (String.eqb_spec k name) as [-> | Hk]; simpl; [exact IH |].
  apply String.eqb_neq in Hk. now rewrite Hk.
Qed.

Ltac other_property :=
  rewrite ?lookup_remove_other by discriminate.

(** X8.  A payload whose [response_format] is falsy ([null], [false], [0], the
    empty string) is handled exactly as the same payload without the
    property: the same calls and the same answer. *)
Theorem falsy_response_format_ignored (fields : list (string * JSValue)) (net : Network) :
  JS.ToBoolean (JS.lookup "response_format" fields) = false ->
  POST {| request_json := Normal (JObj fields) |} net =
  POST {| request_json := Normal (JObj (remove_property "response_format" fields)) |} net.
Proof.
  intros Hfalsy. rewrite !POST_follows_plan, !plan_payload.
  assert (Hspread :
            spread_response_format (JS.lookup "response_format" fields) =
            spread_response_format
              (JS.lookup "response_format" (remove_property "response_format" fields))).
  { unfold spread_response_format. now rewrite Hfalsy, lookup_removed. }
  unfold missing_required_fields, Claude_call, Deepseek_call, OpenAI_call, prepare,
    ClaudeProvider.requestBody, DeepseekProvider.requestBody, OpenAIProvider.requestBody.
  cbn [JS.Get Completion_bind]. other_property. now rewrite <- Hspread.
Qed.

Lemma falsy_response_format_ignored_witness :
  POST {| request_json := Normal (JObj null_format) |} upstream_ok =
  POST {| request_json := Normal (JObj (remove_property "response_format" null_format)) |}
    upstream_ok.
Proof. apply (falsy_response_format_ignored null_format upstream_ok). reflexivity. Defined.

Lemma find_registered (model : JSValue) (extra : list LLMProvider) :
  Forall (fun p => exists b, canHandle p model = Normal b) extra ->
  JS.find (fun p => canHandle p model) (extra ++ [OpenAI])
  = Normal (Some match List.find (handles model) extra with
                 | Some p => p
                 | None => OpenAI
                 end).
Proof.
  induction 1 as [| p extra [b Hb] _ IH]; simpl; [reflexivity |].
  unfold handles at 1. rewrite Hb. destruct b; [reflexivity | exact IH].
Qed.

(** X9.  After any calls of [registerProvider], a model string is given to:
    the Anthropic provider if it starts with "claude-"; otherwise the Deepseek
    provider if it starts with "deepseek-"; otherwise the first registered
    provider that handles it, in the order of registration; otherwise the
    OpenAI provider.  (The registered providers are assumed to answer
    [canHandle] without throwing.) *)
Theorem getProvider_registered (extra : list LLMProvider) (model : string) :
  Forall (fun p => exists b, canHandle p (JStr model) = Normal b) extra ->
  LLMProviderFactory.getProvider (registered extra) (JStr model) =
  Normal (if String.prefix "claude-" model then Claude
          else if String.prefix "deepseek-" model then Deepseek
          else match List.find (handles (JStr model)) extra with
               | Some p => p
               | None => OpenAI
               end).
Proof.
  intros Hextra. rewrite registered_shape. unfold LLMProviderFactory.getProvider.
  cbn [app JS.find canHandle Claude Deepseek].
  unfold ClaudeProvider.canHandle, DeepseekProvider.canHandle, JS.startsWith.
  destruct (String.prefix "claude-" model); [reflexivity |].
  destruct (String.prefix "deepseek-" model); [reflexivity |].
  now rewrite (find_registered (JStr model) extra Hextra).
Qed.

Lemma getProvider_registered_witness :
  LLMProviderFactory.getProvider (registered [Llama]) (JStr "llama-3") = Normal Llama.
Proof.
  apply (getProvider_registered [Llama] "llama-3").
  repeat constructor. now exists true.
Defined.

(** X10.  When the upstream answers with a success status and its body cannot
    be read, the handler answers 502 "Invalid JSON response from LLM
    provider", as for a body that is not JSON. *)
Theorem unreadable_success_answered_502 (request : NextRequest) (net : Network)
    (call : FetchCall) (response : Response) (e : JSError) :
  fst (POST request net) = [call] ->
  net call = Normal response ->
  ok response = true ->
  body response = Throw e ->
  snd (POST request net) =
  Normal {| response_status := 502;
            response_body :=
              JSON.text (error_message "Invalid JSON response from LLM provider") |}.
Proof.
  intros Hcall Hnet Hok Hbody.
  rewrite (POST_answer request net call response Hcall Hnet).
  unfold respond, relay_success, Response_text.
  cbn [Completion_bind]. now rewrite Hok, Hbody.
Qed.

Lemma unreadable_success_answered_502_witness :
  snd (POST (request_of json_request) (fun _ => Normal broken_body)) =
  Normal {| response_status := 502;
            response_body :=
              JSON.text (error_message "Invalid JSON response from LLM provider") |}.
Proof.
  apply (unreadable_success_answered_502 (request_of json_request)
           (fun _ => Normal broken_body) (outbound json_request) broken_body TypeError);
    reflexivity.
Defined.

(** X11.  When the upstream answers with a non-success status and the JSON
    text [null], the handler answers 500 "Internal server error", not the
    status of the upstream: reading [error] of [null] throws. *)
Theorem null_error_answered_500 (request : NextRequest) (net : Network)
    (call : FetchCall) (response : Response) (t : BodyText) :
  fst (POST request net) = [call] ->
  net call = Normal response ->
  ok response = false ->
  body response = Normal t ->
  json t = Some JNull ->
  snd (POST request net) =
  Normal {| response_status := 500;
            response_body := JSON.text (error_message "Internal server error") |}.
Proof.
  intros Hcall Hnet Hok Hbody Hjson.
  rewrite (POST_answer request net call response Hcall Hnet).
  unfold respond, relay_error, errorData, Response_text, JSON_parse.
  cbn [Completion_bind]. rewrite Hok, Hbody. cbn [negb catch Completion_bind].
  now rewrite Hjson.
Qed.

Lemma null_error_answered_500_witness :
  snd (POST (request_of json_request) (fun _ => Normal null_body)) =
  Normal {| response_status := 500;
            response_body := JSON.text (error_message "Internal server error") |}.
Proof.
  apply (null_error_answered_500 (request_of json_request) (fun _ => Normal null_body)
           (outbound json_request) null_body {| chars := "null"; json := Some JNull |});
    reflexivity.
Defined.

(** * Further properties of the earlier revisions *)

Lemma Inline_POST_follows_plan (request : NextRequest) (net : Network) :
  Inline.POST request net =
  match plan request with
  | Reject => ([], Normal missing_fields_response)
  | Fail => ([], Normal internal_error_response)
  | Call call => ([call], Inline_respond (net call))
  end.
Proof.
  unfold Inline.POST, plan. rewrite try_catch_bind_lift.
  destruct (request_json request) as [body |]; [| reflexivity].
  rewrite try_catch_bind_lift, Inline_missing_required_fields.
  destruct (missing_required_fields body) as [[|] |]; [reflexivity | | reflexivity].
  rewrite try_catch_lift. unfold bind. rewrite Inline_call_provider.
  destruct (JS.Get body "model") as [[| | b | n | model | l | fields] |]; try reflexivity.
  unfold call_once, plan_of, Inline_respond, lift.
  destruct (if isClaude model then _ else _) as [call |]; [| reflexivity].
  destruct (net call) as [response |]; [| reflexivity].
  cbn [Completion_bind]. destruct (negb (ok response)).
  - now destruct (Inline.relay_error response).
  - now destruct (Inline.relay_success response).
Qed.

(** X12.  In the inline revision, an upstream body that is not JSON is answered
    with 500 "Internal server error", whatever the status of the upstream: a
    page of HTML sent with 502, and one sent with 200, both end in the outer
    [catch]. *)
Theorem Inline_not_JSON_answered_500 (request : NextRequest) (net : Network)
    (call : FetchCall) (response : Response) (t : BodyText) :
  fst (Inline.POST request net) = [call] ->
  net call = Normal response ->
  body response = Normal t ->
  json t = None ->
  snd (Inline.POST request net) =
  Normal {| response_status := 500;
            response_body := JSON.text (error_message "Internal server error") |}.
Proof.
  rewrite Inline_POST_follows_plan. destruct (plan request) as [| | call']; simpl;
    try discriminate.
  intros [= ->] -> Hbody Hjson.
  unfold Inline_respond, Inline.relay_error, Inline.relay_success, Response_json,
    Response_text, JSON_parse.
  cbn [Completion_bind]. rewrite Hbody. cbn [Completion_bind]. rewrite Hjson.
  now destruct (negb (ok response)).
Qed.

Lemma Inline_not_JSON_answered_500_witness :
  snd (Inline.POST (request_of json_request) (fun _ => Normal html_page)) =
  Normal {| response_status := 500;
            response_body := JSON.text (error_message "Internal server error") |}.
Proof.
  apply (Inline_not_JSON_answered_500 (request_of json_request) (fun _ => Normal html_page)
           (outbound json_request) html_page
           {| chars := "<html><body>It works!</body></html>"; json := None |});
    reflexivity.
Defined.

Lemma respond_JSON (response : Response) (t : BodyText) (data : JSValue) :
  body response = Normal t ->
  json t = Some data ->
  Inline_respond (Normal response) = respond (Normal response).
Proof.
  intros Hbody Hjson.
  unfold Inline_respond, respond, Inline.relay_error, Inline.relay_success, relay_error,
    relay_success, errorData, Response_json, Response_text, JSON_parse.
  cbn [Completion_bind]. rewrite Hbody. cbn [Completion_bind catch]. rewrite Hjson.
  reflexivity.
Qed.

(** X13.  The inline revision and the Strategy revision give the same calls
    and the same answer on every inbound request, as long as the bodies that
    the upstream sends are JSON: the two differ only in how they treat a body
    that is not JSON or cannot be read. *)
Theorem Inline_Strategy_same_answer (request : NextRequest) (net : Network) :
  answers_JSON net ->
  Inline.POST request net = Strategy.POST request net.
Proof.
  intros Hnet. rewrite Inline_POST_follows_plan, POST_follows_plan.
  destruct (plan request) as [| | call]; simpl; try reflexivity.
  destruct (net call) as [response |] eqn:Hcall; [| reflexivity].
  destruct (Hnet call response Hcall) as (t & data & Hbody & Hjson).
  now rewrite (respond_JSON response t data Hbody Hjson).
Qed.

Lemma Inline_Strategy_same_answer_witness :
  Inline.POST (request_of terse_request) (fun _ => Normal rate_limited)
  = Strategy.POST (request_of terse_request) (fun _ => Normal rate_limited).
Proof.
  apply (Inline_Strategy_same_answer (request_of terse_request)
           (fun _ => Normal rate_limited)).
  intros call response [= <-]. now eexists _, _.
Defined.

Lemma OpenAIOnly_missing_required_fields_spec (fields : list (string * JSValue)) :
  OpenAIOnly.missing_required_fields (JObj fields) = Normal true <->
  missing "apiKey" fields \/ missing "model" fields \/ missing "messages" fields
  \/ absent "temperature" fields.
Proof.
  unfold OpenAIOnly.missing_required_fields, missing, absent. simpl.
  destruct (JS.ToBoolean (JS.lookup "apiKey" fields)); simpl; [| tauto].
  destruct (JS.ToBoolean (JS.lookup "model" fields)); simpl; [| tauto].
  destruct (JS.ToBoolean (JS.lookup "messages" fields)); simpl; [| tauto].
  destruct (JS.lookup "temperature" fields); simpl; try tauto;
    (split; [discriminate |]); intros [H | [H | [H | H]]]; discriminate H.
Qed.

Lemma OpenAIOnly_missing_required_fields_total (fields : list (string * JSValue)) :
  exists b, OpenAIOnly.missing_required_fields (JObj fields) = Normal b.
Proof.
  unfold OpenAIOnly.missing_required_fields. simpl.
  repeat match goal with
         | |- context [if ?c then _ else _] => destruct c
         end; eauto.
Qed.

(** X14.  The first revision of the relay sends every payload that passes
    its validation, and whose [apiKey] can be written into the
    [Authorization] header, to the endpoint of OpenAI, whatever the model (a
    "claude-" model too), with the key as bearer token; the body has the
    payload's [model], [messages], [response_format] and [temperature], and
    nothing else ([max_completion_tokens] is neither required nor forwarded).
    When the [apiKey] cannot be turned into a string (an object with a
    [toString] property of its own), no call is made and the answer is 500
    "Internal server error". *)
Theorem OpenAIOnly_call (fields : list (string * JSValue)) (net : Network) :
  ~ (missing "apiKey" fields \/ missing "model" fields \/ missing "messages" fields
     \/ absent "temperature" fields) ->
  match JS.ToString (JS.lookup "apiKey" fields) with
  | Normal key =>
      fst (OpenAIOnly.POST {| request_json := Normal (JObj fields) |} net) =
      [{| url := "https://api.openai.com/v1/chat/completions";
          init :=
            JObj [("method", JStr "POST");
                  ("headers", JObj [("Content-Type", JStr "application/json");
                                    ("Authorization", JStr ("Bearer " ++ key)%string)]);
                  ("body",
                   JSON.stringify
                     (JObj [("model", JS.lookup "model" fields);
                            ("messages", JS.lookup "messages" fields);
                            ("response_format", JS.lookup "response_format" fields);
                            ("temperature", JS.lookup "temperature" fields)]))] |}]
  | Throw _ =>
      OpenAIOnly.POST {| request_json := Normal (JObj fields) |} net =
      ([], Normal {| response_status := 500;
                     response_body := JSON.text (error_message "Internal server error") |})
  end.
Proof.
  intros Hvalid. rewrite <- OpenAIOnly_missing_required_fields_spec in Hvalid.
  unfold OpenAIOnly.POST.
  destruct (OpenAIOnly_missing_required_fields_total fields) as [[|] Hb];
    [now destruct Hvalid |].
  destruct (JS.ToString (JS.lookup "apiKey" fields)) as [key | e] eqn:Hkey.
  - rewrite try_catch_lift. cbn [fst request_json].
    rewrite bind_lift_Normal, Hb, bind_lift_Normal. cbn [JS.Get].
    rewrite bind_lift_Normal, Hkey.
    rewrite !bind_lift_Normal. unfold bind, fetch.
    destruct (net _) as [response |]; [| reflexivity].
    destruct (negb (ok response)); unfold lift.
    + now destruct (Inline.relay_error response).
    + now destruct (Inline.relay_success response).
  - unfold try_catch, bind, lift. cbn [request_json]. rewrite Hb.
    cbn [JS.Get]. rewrite Hkey. reflexivity.
Qed.

Lemma OpenAIOnly_call_witness :
  fst (OpenAIOnly.POST (request_of terse_request) upstream_ok) =
  [{| url := "https://api.openai.com/v1/chat/completions";
      init :=
        JObj [("method", JStr "POST");
              ("headers", JObj [("Content-Type", JStr "application/json");
                                ("Authorization", JStr "Bearer k")]);
              ("body",
               JSON.stringify
                 (JObj [("model", JStr "claude-sonnet-4-20250514");
                        ("messages", JArr [JObj [("role", JStr "system");
                                                 ("content", JStr "Be terse.")];
                                           JObj [("role", JStr "user");
                                                 ("content", JStr "Hi")]]);
                        ("response_format", JUndefined);
                        ("temperature", JNum (num "0.5"))]))] |}].
Proof.
  refine (OpenAIOnly_call
            [("apiKey", JStr "k");
             ("model", JStr "claude-sonnet-4-20250514");
             ("messages", JArr [JObj [("role", JStr "system");
                                      ("content", JStr "Be terse.")];
                                JObj [("role", JStr "user"); ("content", JStr "Hi")]]);
             ("temperature", JNum (num "0.5"));
             ("max_completion_tokens", JNum (num "100"))]
            upstream_ok _).
  unfold missing, absent. simpl. intuition discriminate.
Defined.

(** X15.  On a payload that is an object, the first revision answers 400
    "Missing required fields" without any call exactly when [apiKey], [model]
    or [messages] is absent or falsy, or [temperature] is absent. *)
Theorem OpenAIOnly_rejected_exactly_when_missing (fields : list (string * JSValue))
    (net : Network) :
  OpenAIOnly.POST {| request_json := Normal (JObj fields) |} net
  = ([], Normal missing_fields_response)
  <->
  (missing "apiKey" fields \/ missing "model" fields \/ missing "messages" fields
   \/ absent "temperature" fields).
Proof.
  rewrite <- OpenAIOnly_missing_required_fields_spec.
  unfold OpenAIOnly.POST. rewrite try_catch_lift. cbn [request_json].
  rewrite bind_lift_Normal.
  destruct (OpenAIOnly_missing_required_fields_total fields) as [[|] Hb]; rewrite Hb.
  - split; reflexivity.
  - split; [| discriminate]. rewrite bind_lift_Normal. cbn [JS.Get].
    rewrite bind_lift_Normal.
    destruct (JS.ToString (JS.lookup "apiKey" fields)) as [key |].
    + rewrite !bind_lift_Normal. unfold bind, fetch.
      destruct (net _) as [response |]; [| discriminate].
      destruct (negb (ok response)); unfold lift.
      * destruct (Inline.relay_error response); discriminate.
      * destruct (Inline.relay_success response); discriminate.
    + unfold bind, lift. cbn. unfold missing_fields_response. discriminate.
Qed.

(** * The stored keys of the page *)

Lemma reparse_keys (keys : list StoredApiKey.t) :
  storable keys -> Browser.reparse (keys_toJS keys) = keys_toJS keys.
Proof.
  unfold keys_toJS. intros H. cbn [Browser.reparse]. f_equal.
  induction H as [| k keys Hk _ IH]; [reflexivity |].
  cbn [map]. rewrite IH. f_equal.
  unfold StoredApiKey.toJS, finite in *. cbn.
  apply negb_true_iff in Hk. now rewrite Hk.
Qed.

Lemma getStoredApiKeys_holding (keys : list StoredApiKey.t) (old : option string) :
  storable keys ->
  Home.getStoredApiKeys (Some (holding keys old)) = Normal (keys_toJS keys).
Proof.
  intros H. unfold Home.getStoredApiKeys, holding, Browser.stringified, keys_toJS.
  cbn [Browser.api_keys_item chars JSON_parse json].
  fold (keys_toJS keys). rewrite (reparse_keys keys H).
  unfold keys_toJS. cbn [JSON.text].
  reflexivity.
Qed.

Lemma some_key_is (key : string) (keys : list StoredApiKey.t) :
  Browser.some (Home.key_is key) (map StoredApiKey.toJS keys) = Normal (has_key key keys).
Proof.
  induction keys as [| k keys IH]; [reflexivity |].
  cbn [map Browser.some has_key existsb]. unfold Home.key_is at 1. cbn.
  destruct (StoredApiKey.key k =? key)%string; [reflexivity | exact IH].
Qed.

Lemma filter_id_is_not (id : string) (keys : list StoredApiKey.t) :
  JS.filter (Home.id_is_not id) (map StoredApiKey.toJS keys)
  = Normal (map StoredApiKey.toJS (without_id id keys)).
Proof.
  induction keys as [| k keys IH]; [reflexivity |].
  cbn [map JS.filter without_id List.filter]. unfold Home.id_is_not at 1. cbn.
  rewrite IH. now destruct (StoredApiKey.id k =? id)%string.
Qed.

Lemma storable_without_id (id : string) (keys : list StoredApiKey.t) :
  storable keys -> storable (without_id id keys).
Proof.
  unfold storable, without_id. rewrite !Forall_forall. intros H k Hk.
  apply filter_In in Hk. now apply H.
Qed.

Lemma addApiKey_holding (keys : list StoredApiKey.t) (old : option string) (key : string)
    (now now' : Number) :
  storable keys ->
  Home.addApiKey (holding keys old) key now now' =
  Normal (if has_key key keys then holding keys old
          else holding (new_key key now now' :: keys) old).
Proof.
  intros Hkeys. unfold Home.addApiKey. rewrite (getStoredApiKeys_holding keys old Hkeys).
  cbn [Completion_bind keys_toJS Browser.call_some]. rewrite some_key_is.
  cbn [Completion_bind]. destruct (has_key key keys); reflexivity.
Qed.

Lemma deleteApiKey_holding (keys : list StoredApiKey.t) (old : option string) (id : string) :
  storable keys ->
  Home.deleteApiKey (holding keys old) id = Normal (holding (without_id id keys) old).
Proof.
  intros Hkeys. unfold Home.deleteApiKey. rewrite (getStoredApiKeys_holding keys old Hkeys).
  cbn [Completion_bind keys_toJS JS.call_filter]. now rewrite filter_id_is_not.
Qed.

Lemma without_id_absent (id : string) (keys : list StoredApiKey.t) :
  ~ In id (map StoredApiKey.id keys) -> without_id id keys = keys.
Proof.
  intros Hnot. unfold without_id. induction keys as [| k keys IH]; [reflexivity |].
  cbn [List.filter]. destruct (String.eqb_spec (StoredApiKey.id k) id) as [Heq | Hne].
  - destruct Hnot. now left.
  - cbn [negb]. f_equal. apply IH. intros Hin. apply Hnot. now right.
Qed.

(** X16.  [addApiKey] on a storage that holds a list of keys: a key that is
    already stored changes nothing; any other key is put in front of the
    list, with the first reading of the clock as its [id] and the second as
    [createdAt].  On a storage without the item, the list is the new key
    alone. *)
Theorem addApiKey_stored (keys : list StoredApiKey.t) (old : option string) (key : string)
    (now now' : Number) :
  storable keys ->
  Home.addApiKey (holding keys old) key now now' =
  Normal (if has_key key keys then holding keys old
          else holding (new_key key now now' :: keys) old)
  /\ Home.addApiKey (fresh old) key now now' = Normal (holding [new_key key now now'] old).
Proof.
  intros Hkeys. split.
  - now apply addApiKey_holding.
  - reflexivity.
Qed.

Lemma addApiKey_stored_witness :
  Home.addApiKey (holding two_keys None) "sk-c" (num "1756800000000") (num "1756800000001") =
  Normal (holding (new_key "sk-c" (num "1756800000000") (num "1756800000001") :: two_keys)
            None)
  /\ Home.addApiKey (fresh None) "sk-c" (num "1756800000000") (num "1756800000001") =
     Normal (holding [new_key "sk-c" (num "1756800000000") (num "1756800000001")] None).
Proof.
  apply (addApiKey_stored two_keys None "sk-c" (num "1756800000000")
           (num "1756800000001")). repeat constructor.
Defined.

(** X17.  [addApiKey] keeps the stored keys free of duplicates: if no key is
    stored twice before, none is after, the key that was added is stored, and
    every entry that was stored still is. *)
Theorem addApiKey_no_duplicates (keys : list StoredApiKey.t) (old : option string)
    (key : string) (now now' : Number) :
  storable keys ->
  finite now' = true ->
  NoDup (map StoredApiKey.key keys) ->
  exists keys',
    Home.addApiKey (holding keys old) key now now' = Normal (holding keys' old)
    /\ storable keys'
    /\ NoDup (map StoredApiKey.key keys')
    /\ In key (map StoredApiKey.key keys')
    /\ incl keys keys'.
Proof.
  intros Hkeys Hnow Hnodup.
  rewrite (addApiKey_holding keys old key now now' Hkeys).
  destruct (has_key key keys) eqn:Hhas.
  - exists keys. repeat split; try assumption; [| apply incl_refl].
    unfold has_key in Hhas. apply existsb_exists in Hhas.
    destruct Hhas as (k & Hk & Heq). apply String.eqb_eq in Heq. subst key.
    now apply in_map.
  - exists (new_key key now now' :: keys). repeat split.
    + constructor; assumption.
    + cbn [map new_key StoredApiKey.key]. constructor; [| assumption].
      intros Hin. apply in_map_iff in Hin. destruct Hin as (k & Heq & Hk).
      assert (Hyes : has_key key keys = true).
      { unfold has_key. apply existsb_exists. exists k. split; [assumption |].
        now apply String.eqb_eq. }
      congruence.
    + now left.
    + apply incl_tl, incl_refl.
Qed.

Lemma addApiKey_no_duplicates_witness :
  exists keys',
    Home.addApiKey (holding two_keys None) "sk-a" (num "1756800000000")
      (num "1756800000001") = Normal (holding keys' None)
    /\ storable keys'
    /\ NoDup (map StoredApiKey.key keys')
    /\ In "sk-a" (map StoredApiKey.key keys')
    /\ incl two_keys keys'.
Proof.
  apply (addApiKey_no_duplicates two_keys None "sk-a" (num "1756800000000")
           (num "1756800000001")); [repeat constructor | reflexivity |].
  repeat constructor; simpl; intuition discriminate.
Defined.

(** X18.  [deleteApiKey] removes every stored entry that has the given [id]
    and keeps the others in their order; an [id] that no entry has leaves the
    list as it is. *)
Theorem deleteApiKey_stored (keys : list StoredApiKey.t) (old : option string) (id : string) :
  storable keys ->
  Home.deleteApiKey (holding keys old) id = Normal (holding (without_id id keys) old)
  /\ ~ In id (map StoredApiKey.id (without_id id keys))
  /\ (~ In id (map StoredApiKey.id keys) -> without_id id keys = keys).
Proof.
  intros Hkeys. split; [| split].
  - now apply deleteApiKey_holding.
  - intros Hin. apply in_map_iff in Hin. destruct Hin as (k & Heq & Hk).
    apply filter_In in Hk. destruct Hk as [_ Hk]. apply negb_true_iff in Hk.
    apply String.eqb_neq in Hk. now apply Hk.
  - apply without_id_absent.
Qed.

Lemma deleteApiKey_stored_witness :
  Home.deleteApiKey (holding two_keys None) "1756700000000" =
  Normal (holding (without_id "1756700000000" two_keys) None)
  /\ ~ In "1756700000000" (map StoredApiKey.id (without_id "1756700000000" two_keys))
  /\ (~ In "1756700000000" (map StoredApiKey.id two_keys) ->
      without_id "1756700000000" two_keys = two_keys).
Proof.
  apply (deleteApiKey_stored two_keys None "1756700000000"). repeat constructor.
Defined.

(** X19.  Adding a key that is not stored and deleting it again by its [id]
    gives back the list of before, provided no stored entry has that [id];
    entries that share the [id] (keys added in the same millisecond) are
    deleted with it. *)
Theorem add_then_delete (keys : list StoredApiKey.t) (old : option string) (key : string)
    (now now' : Number) :
  storable keys ->
  finite now' = true ->
  has_key key keys = false ->
  (added <- Home.addApiKey (holding keys old) key now now' ;;
   Home.deleteApiKey added (Number_toString now))%completion
  = Normal (holding (without_id (Number_toString now) keys) old)
  /\ (~ In (Number_toString now) (map StoredApiKey.id keys) ->
      without_id (Number_toString now) keys = keys).
Proof.
  intros Hkeys Hnow Hnew.
  rewrite (addApiKey_holding keys old key now now' Hkeys), Hnew. cbn [Completion_bind].
  assert (Hkeys' : storable (new_key key now now' :: keys)) by (constructor; assumption).
  rewrite (deleteApiKey_holding _ old (Number_toString now) Hkeys').
  unfold without_id at 1. cbn [List.filter new_key StoredApiKey.id].
  rewrite String.eqb_refl. cbn [negb]. split; [reflexivity |].
  apply without_id_absent.
Qed.

Lemma add_then_delete_witness :
  (added <- Home.addApiKey (holding two_keys None) "sk-c" (num "1756800000000")
              (num "1756800000001") ;;
   Home.deleteApiKey added "1756800000000")%completion
  = Normal (holding (without_id "1756800000000" two_keys) None)
  /\ (~ In "1756800000000" (map StoredApiKey.id two_keys) ->
      without_id "1756800000000" two_keys = two_keys).
Proof.
  apply (add_then_delete two_keys None "sk-c" (num "1756800000000") (num "1756800000001"));
    [repeat constructor | reflexivity | reflexivity].
Defined.

(** * The page and the relay *)

(** X20.  Every model that the page offers is listed under the provider that
    the relay selects for it: the models under "Anthropic" go to the Anthropic
    provider, those under "Deepseek" to the Deepseek provider, those under
    "OpenAI" to the OpenAI provider; and the page withholds [response_format]
    exactly for the models listed under "Anthropic". *)
Theorem offered_models_routed (model provider : string) :
  Home.getProviderForModel model = Some provider ->
  LLMProviderFactory.getProvider LLMProviderFactory.providers (JStr model)
  = Normal (provider_named provider)
  /\ Home.isClaudeModel model = (provider =? "Anthropic")%string.
Proof.
  unfold Home.getProviderForModel, Home.modelProviders. cbn [Home.getProviderFor Home.includes].
  repeat match goal with
         | |- context [(?m =? model)%string] =>
             destruct (String.eqb_spec m model) as [<- | _];
             [cbn; intros [= <-]; split; reflexivity |]
         end.
  cbn. discriminate.
Qed.

Lemma offered_models_routed_witness :
  LLMProviderFactory.getProvider LLMProviderFactory.providers (JStr "deepseek-reasoner")
  = Normal Deepseek
  /\ Home.isClaudeModel "deepseek-reasoner" = false.
Proof. apply (offered_models_routed "deepseek-reasoner" "Deepseek"). reflexivity. Defined.

Lemma reparse_requestBody (fd : Home.FormData) :
  finite (Home.temperature fd) = true ->
  finite (Home.maxTokens fd) = true ->
  Browser.reparse (Home.requestBody fd) = ChatRequest_toJS (chat_request_of fd).
Proof.
  unfold finite. intros Ht%negb_true_iff Hm%negb_true_iff.
  unfold Home.requestBody, ChatRequest_toJS, chat_request_of.
  cbn [apiKey model messages response_format temperature max_completion_tokens].
  destruct (Home.isClaudeModel (Home.model fd)); cbn; rewrite Ht, Hm;
    [reflexivity | now destruct (Home.responseFormat fd)].
Qed.

Lemma trim_not_empty (s : string) : Browser.trim s <> "" -> s <> "".
Proof. intros H ->. now apply H. Qed.

(** X21.  A form that the page lets the user submit (key and prompts not
    blank), with a model that is not empty, is never rejected by the relay:
    the payload that reaches the relay is the request of the declared type
    that the form stands for, with [response_format] unless the model is an
    Anthropic one, and the relay makes its one call to the provider of the
    model and answers from it. *)
Theorem valid_form_accepted (st : Home.State) (net : Network) :
  Home.isFormValid st = true ->
  Home.model (Home.formData st) <> "" ->
  finite (Home.temperature (Home.formData st)) = true ->
  finite (Home.maxTokens (Home.formData st)) = true ->
  delivered (Home.formData st) = request_of (chat_request_of (Home.formData st))
  /\ Strategy.POST (delivered (Home.formData st)) net =
     ([outbound (chat_request_of (Home.formData st))],
      respond (net (outbound (chat_request_of (Home.formData st))))).
Proof.
  intros Hvalid Hmodel Ht Hm.
  assert (Hsame : delivered (Home.formData st)
                  = request_of (chat_request_of (Home.formData st))).
  { unfold delivered, request_of. now rewrite reparse_requestBody. }
  split; [exact Hsame |]. rewrite Hsame. apply POST_typed; [| exact Hmodel].
  unfold Home.isFormValid in Hvalid.
  apply andb_prop in Hvalid. destruct Hvalid as [Hvalid _].
  apply andb_prop in Hvalid. destruct Hvalid as [Hkey _].
  apply negb_true_iff, String.eqb_neq in Hkey. now apply trim_not_empty.
Qed.

Lemma valid_form_accepted_witness :
  delivered filled_form = request_of (chat_request_of filled_form)
  /\ Strategy.POST (delivered filled_form) upstream_ok =
     ([outbound (chat_request_of filled_form)],
      respond (upstream_ok (outbound (chat_request_of filled_form)))).
Proof.
  apply (valid_form_accepted filled upstream_ok); try reflexivity. discriminate.
Defined.

(** * Submitting the form *)

Lemma ask_relay (fd : Home.FormData) (net : Network) :
  Home.ask fd net =
  ([relay_call fd], (response <- net (relay_call fd) ;; shown response)%completion).
Proof.
  unfold Home.ask, bind, fetch. fold (relay_call fd).
  destruct (net (relay_call fd)) as [response |]; [| reflexivity].
  cbn [Completion_bind]. unfold shown, lift.
  destruct (negb (ok response)).
  - destruct (Response_json response) as [errorData |]; [| reflexivity].
    cbn [Completion_bind]. destruct (JS.Get errorData "error") as [error |];
      [| reflexivity].
    cbn [Completion_bind]. destruct (JS.OptionalGet error "message") as [message |];
      [| reflexivity].
    cbn [Completion_bind]. destruct (JS.ToString _); reflexivity.
  - destruct (Response_json response) as [data |]; [| reflexivity].
    cbn [Completion_bind]. destruct (Browser.has "choices" data) as [[|] |];
      [| | reflexivity]; cbn [Completion_bind].
    + destruct (JS.Get data "choices") as [choices |]; [| reflexivity].
      cbn [Completion_bind]. destruct (Browser.Get0 choices) as [first |];
        [| reflexivity].
      cbn [Completion_bind]. destruct (JS.Get first "message") as [message |];
        [| reflexivity].
      cbn [Completion_bind]. destruct (JS.Get message "content"); reflexivity.
    + destruct (JS.Get data "content") as [content |]; [| reflexivity].
      cbn [Completion_bind]. destruct (Browser.Get0 content) as [first |];
        [| reflexivity].
      cbn [Completion_bind]. destruct (JS.Get first "text"); reflexivity.
Qed.

Lemma storable_after_submit (keys : list StoredApiKey.t) (key : string) (now now' : Number) :
  storable keys -> finite now' = true -> storable (keys_after_submit keys key now now').
Proof.
  intros Hkeys Hnow. unfold keys_after_submit.
  destruct (Browser.trim key =? "")%string; [assumption |].
  destruct (has_key _ keys); [assumption | now constructor].
Qed.

Lemma handleSubmit_holding (st : Home.State) (keys : list StoredApiKey.t)
    (old : option string) (now now' : Number) (net : Network) :
  storable keys ->
  finite now' = true ->
  Home.handleSubmit st (holding keys old) now now' net =
  {| Home.calls := [relay_call (Home.formData st)];
     Home.state :=
       Home.setIsLoading
         match (response <- net (relay_call (Home.formData st)) ;;
                shown response)%completion with
         | Normal value => Home.setOutput (submitting st keys now now') value
         | Throw err => Home.setError (submitting st keys now now') (Home.message_of err)
         end
         false;
     Home.storage :=
       holding (keys_after_submit keys (Home.apiKey (Home.formData st)) now now') old;
     Home.uncaught := None |}.
Proof.
  intros Hkeys Hnow. unfold Home.handleSubmit, submitting, keys_after_submit.
  rewrite ask_relay.
  destruct (Browser.trim (Home.apiKey (Home.formData st)) =? "")%string; [reflexivity |].
  rewrite (addApiKey_holding keys old _ now now' Hkeys).
  destruct (has_key _ keys).
  - rewrite (getStoredApiKeys_holding keys old Hkeys). reflexivity.
  - rewrite getStoredApiKeys_holding by now constructor. reflexivity.
Qed.

(** X22.  However the relay answers, and also when the call does not
    complete, [handleSubmit] makes exactly one call, of the relay, leaves the
    form as it was, ends with [isLoading] false, and leaves an error or an
    output, never both: the output is empty when an error is shown.  (The
    storage holds a list of keys.) *)
Theorem handleSubmit_outcome (st : Home.State) (keys : list StoredApiKey.t)
    (old : option string) (now now' : Number) (net : Network) :
  storable keys ->
  finite now' = true ->
  let out := Home.handleSubmit st (holding keys old) now now' net in
  Home.uncaught out = None
  /\ Home.calls out = [relay_call (Home.formData st)]
  /\ Home.isLoading (Home.state out) = false
  /\ Home.formData (Home.state out) = Home.formData st
  /\ (Home.error (Home.state out) = Home.Text ""
      \/ Home.output (Home.state out) = JStr "").
Proof.
  intros Hkeys Hnow out. subst out.
  rewrite (handleSubmit_holding st keys old now now' net Hkeys Hnow).
  cbn [Home.uncaught Home.calls Home.state].
  assert (Hsub : Home.formData (submitting st keys now now') = Home.formData st
                 /\ Home.error (submitting st keys now now') = Home.Text ""
                 /\ Home.output (submitting st keys now now') = JStr "").
  { unfold submitting. now destruct (_ =? _)%string. }
  destruct Hsub as (Hform & Herror & Houtput).
  destruct (Completion_bind _ _);
    cbn [Home.setIsLoading Home.setOutput Home.setError Home.formData Home.isLoading
           Home.error Home.output];
    repeat split; auto.
Qed.

Lemma handleSubmit_outcome_witness :
  let out := Home.handleSubmit filled (holding two_keys None) (num "1756800000000")
               (num "1756800000001") unreachable in
  Home.uncaught out = None
  /\ Home.calls out = [relay_call filled_form]
  /\ Home.isLoading (Home.state out) = false
  /\ Home.formData (Home.state out) = filled_form
  /\ (Home.error (Home.state out) = Home.Text ""
      \/ Home.output (Home.state out) = JStr "").
Proof.
  apply (handleSubmit_outcome filled two_keys None (num "1756800000000")
           (num "1756800000001") unreachable); [repeat constructor | reflexivity].
Defined.

Lemma has_key_after_submit (keys : list StoredApiKey.t) (key : string) (now now' : Number) :
  Browser.trim key <> "" ->
  In (Browser.trim key) (map StoredApiKey.key (keys_after_submit keys key now now')).
Proof.
  intros Hkey. unfold keys_after_submit. apply String.eqb_neq in Hkey. rewrite Hkey.
  destruct (has_key (Browser.trim key) keys) eqn:Hhas; [| now left].
  unfold has_key in Hhas. apply existsb_exists in Hhas.
  destruct Hhas as (k & Hk & Heq). apply String.eqb_eq in Heq. rewrite <- Heq.
  now apply in_map.
Qed.

(** X23.  When the key of the form is not blank, [handleSubmit] stores it
    before it calls the relay: the key is stored without the white space
    around it, in front of the list unless it is there already, and the list
    of the state is the stored one.  The key is sent to the relay as it was
    typed. *)
Theorem handleSubmit_stores_key (st : Home.State) (keys : list StoredApiKey.t)
    (old : option string) (now now' : Number) (net : Network) :
  storable keys ->
  finite now' = true ->
  Browser.trim (Home.apiKey (Home.formData st)) <> "" ->
  let out := Home.handleSubmit st (holding keys old) now now' net in
  let key := Browser.trim (Home.apiKey (Home.formData st)) in
  let keys' := if has_key key keys then keys else new_key key now now' :: keys in
  Home.storage out = holding keys' old
  /\ Home.storedApiKeys (Home.state out) = keys_toJS keys'
  /\ In key (map StoredApiKey.key keys')
  /\ JS.Get (Home.requestBody (Home.formData st)) "apiKey"
     = Normal (JStr (Home.apiKey (Home.formData st))).
Proof.
  intros Hkeys Hnow Hkey out key keys'. subst out.
  rewrite (handleSubmit_holding st keys old now now' net Hkeys Hnow).
  pose proof (has_key_after_submit keys (Home.apiKey (Home.formData st)) now now' Hkey)
    as Hin.
  cbn [Home.storage Home.state]. unfold submitting, keys_after_submit in *.
  apply String.eqb_neq in Hkey. rewrite Hkey in *. fold key in Hin |- *. fold keys' in Hin |- *.
  repeat split; try assumption; try reflexivity.
  destruct (Completion_bind _ _); reflexivity.
Qed.

Lemma handleSubmit_stores_key_witness :
  let out := Home.handleSubmit filled (holding two_keys None) (num "1756800000000")
               (num "1756800000001") upstream_ok in
  let keys' := new_key "sk-c" (num "1756800000000") (num "1756800000001") :: two_keys in
  Home.storage out = holding keys' None
  /\ Home.storedApiKeys (Home.state out) = keys_toJS keys'
  /\ In "sk-c" (map StoredApiKey.key keys')
  /\ JS.Get (Home.requestBody filled_form) "apiKey" = Normal (JStr " sk-c ").
Proof.
  apply (handleSubmit_stores_key filled two_keys None (num "1756800000000")
           (num "1756800000001") upstream_ok);
    [repeat constructor | reflexivity | discriminate].
Defined.

(** X24.  When the stored item is not a list, so that [addApiKey] throws,
    [handleSubmit] ends before it calls the relay: the error leaves the
    handler, no call is made, and the page stays in its loading state. *)
Theorem handleSubmit_storage_error (st : Home.State) (localStorage : Browser.Storage)
    (now now' : Number) (net : Network) (e : JSError) :
  Browser.trim (Home.apiKey (Home.formData st)) <> "" ->
  Home.addApiKey localStorage (Browser.trim (Home.apiKey (Home.formData st))) now now'
  = Throw e ->
  let out := Home.handleSubmit st localStorage now now' net in
  Home.uncaught out = Some e
  /\ Home.calls out = []
  /\ Home.isLoading (Home.state out) = true
  /\ Home.storage out = localStorage.
Proof.
  intros Hkey Hadd out. subst out. unfold Home.handleSubmit.
  apply String.eqb_neq in Hkey. rewrite Hkey, Hadd. repeat split.
Qed.

Lemma handleSubmit_storage_error_witness :
  let out := Home.handleSubmit filled spoiled (num "1756800000000") (num "1756800000001")
               upstream_ok in
  Home.uncaught out = Some TypeError
  /\ Home.calls out = []
  /\ Home.isLoading (Home.state out) = true
  /\ Home.storage out = spoiled.
Proof.
  apply (handleSubmit_storage_error filled spoiled (num "1756800000000")
           (num "1756800000001") upstream_ok TypeError); [discriminate | reflexivity].
Defined.

Lemma lookup_has_property (name : string) (fields : list (string * JSValue)) :
  JS.lookup name fields <> JUndefined -> JS.has_property name fields = true.
Proof.
  induction fields as [| [k x] fields IH]; simpl; [congruence |].
  destruct (k =? name)%string; [reflexivity | exact IH].
Qed.

(** X25.  When the relay answers with a success status and a JSON object, the
    page shows [choices[0].message.content] if the object has a list
    [choices] whose first element has a [message], and [content[0].text] if
    the object has no [choices] and has a list [content] that is not empty;
    the error is empty and the page is no longer loading. *)
Theorem handleSubmit_shows_answer (st : Home.State) (keys : list StoredApiKey.t)
    (old : option string) (now now' : Number) (net : Network) (response : Response)
    (t : BodyText) (fields : list (string * JSValue)) (first : JSValue)
    (others : list JSValue) :
  storable keys ->
  finite now' = true ->
  net (relay_call (Home.formData st)) = Normal response ->
  ok response = true ->
  body response = Normal t ->
  json t = Some (JObj fields) ->
  let out := Home.handleSubmit st (holding keys old) now now' net in
  (forall message content,
      JS.lookup "choices" fields = JArr (first :: others) ->
      JS.Get first "message" = Normal message ->
      JS.Get message "content" = Normal content ->
      Home.output (Home.state out) = content
      /\ Home.error (Home.state out) = Home.Text ""
      /\ Home.isLoading (Home.state out) = false)
  /\ (forall text,
        JS.has_property "choices" fields = false ->
        JS.lookup "content" fields = JArr (first :: others) ->
        JS.Get first "text" = Normal text ->
        Home.output (Home.state out) = text
        /\ Home.error (Home.state out) = Home.Text ""
        /\ Home.isLoading (Home.state out) = false).
Proof.
  intros Hkeys Hnow Hnet Hok Hbody Hjson out. subst out.
  rewrite (handleSubmit_holding st keys old now now' net Hkeys Hnow), Hnet.
  assert (Herror : Home.error (submitting st keys now now') = Home.Text "").
  { unfold submitting. now destruct (_ =? _)%string. }
  cbn [Completion_bind Home.state]. unfold shown, Response_json, Response_text, JSON_parse.
  rewrite Hok, Hbody. cbn [negb Completion_bind]. rewrite Hjson.
  cbn [Completion_bind Browser.has JS.Get]. split.
  - intros message content Hchoices Hmessage Hcontent.
    rewrite lookup_has_property by (rewrite Hchoices; discriminate).
    cbn [Completion_bind]. rewrite Hchoices. cbn [Completion_bind Browser.Get0].
    rewrite Hmessage. cbn [Completion_bind]. rewrite Hcontent.
    repeat split. exact Herror.
  - intros text Hnone Hcontent Htext. rewrite Hnone. cbn [Completion_bind].
    rewrite Hcontent. cbn [Completion_bind Browser.Get0]. rewrite Htext.
    repeat split. exact Herror.
Qed.

Lemma handleSubmit_shows_answer_witness :
  Home.output (Home.state (Home.handleSubmit filled (holding two_keys None)
                             (num "1756800000000") (num "1756800000001") relay_completion))
  = JStr "Hello there!"
  /\ Home.error (Home.state (Home.handleSubmit filled (holding two_keys None)
                               (num "1756800000000") (num "1756800000001")
                               relay_completion))
     = Home.Text ""
  /\ Home.isLoading (Home.state (Home.handleSubmit filled (holding two_keys None)
                                   (num "1756800000000") (num "1756800000001")
                                   relay_completion))
     = false.
Proof.
  refine (proj1 (handleSubmit_shows_answer filled two_keys None (num "1756800000000")
                   (num "1756800000001") relay_completion _ _ completion_fields _ _
                   _ _ _ _ _ _)
            (JObj [("role", JStr "assistant"); ("content", JStr "Hello there!")])
            (JStr "Hello there!") _ _ _);
    try reflexivity. repeat constructor.
Defined.

(** X26.  When the relay answers with a status that is no success and a JSON
    object, the page shows the [message] of the object's [error] when that is
    a string that is not empty, and [HTTP <status>: <statusText>] when the
    object has no [error]; no output is shown and the page is no longer
    loading. *)
Theorem handleSubmit_shows_error (st : Home.State) (keys : list StoredApiKey.t)
    (old : option string) (now now' : Number) (net : Network) (response : Response)
    (t : BodyText) (fields : list (string * JSValue)) :
  storable keys ->
  finite now' = true ->
  net (relay_call (Home.formData st)) = Normal response ->
  ok response = false ->
  body response = Normal t ->
  json t = Some (JObj fields) ->
  let out := Home.handleSubmit st (holding keys old) now now' net in
  (forall details message,
      JS.lookup "error" fields = JObj details ->
      JS.lookup "message" details = JStr message ->
      message <> "" ->
      Home.error (Home.state out) = Home.Text message
      /\ Home.output (Home.state out) = JStr ""
      /\ Home.isLoading (Home.state out) = false)
  /\ (JS.lookup "error" fields = JUndefined ->
      Home.error (Home.state out) = Home.Text (status_line response)
      /\ Home.output (Home.state out) = JStr ""
      /\ Home.isLoading (Home.state out) = false).
Proof.
  intros Hkeys Hnow Hnet Hok Hbody Hjson out. subst out.
  rewrite (handleSubmit_holding st keys old now now' net Hkeys Hnow), Hnet.
  assert (Houtput : Home.output (submitting st keys now now') = JStr "").
  { unfold submitting. now destruct (_ =? _)%string. }
  cbn [Completion_bind Home.state]. unfold shown, Response_json, Response_text, JSON_parse.
  rewrite Hok, Hbody. cbn [negb Completion_bind]. rewrite Hjson.
  cbn [Completion_bind JS.Get]. split.
  - intros details message Herror Hmessage Hfilled. rewrite Herror.
    cbn [JS.OptionalGet JS.Get Completion_bind]. rewrite Hmessage.
    unfold JS.or_else. cbn [JS.ToBoolean]. apply String.eqb_neq in Hfilled.
    rewrite Hfilled. cbn [negb JS.ToString Completion_bind Home.message_of].
    repeat split. exact Houtput.
  - intros Herror. rewrite Herror.
    cbn [JS.OptionalGet JS.or_else JS.ToBoolean JS.ToString Completion_bind
           Home.message_of].
    repeat split. exact Houtput.
Qed.

Lemma handleSubmit_shows_error_witness :
  Home.error (Home.state (Home.handleSubmit filled (holding two_keys None)
                            (num "1756800000000") (num "1756800000001")
                            relay_unauthorized))
  = Home.Text "Incorrect API key provided"
  /\ Home.output (Home.state (Home.handleSubmit filled (holding two_keys None)
                                (num "1756800000000") (num "1756800000001")
                                relay_unauthorized))
     = JStr ""
  /\ Home.isLoading (Home.state (Home.handleSubmit filled (holding two_keys None)
                                   (num "1756800000000") (num "1756800000001")
                                   relay_unauthorized))
     = false.
Proof.
  refine (proj1 (handleSubmit_shows_error filled two_keys None (num "1756800000000")
                   (num "1756800000001") relay_unauthorized unauthorized _
                   [("error", JObj [("message", JStr "Incorrect API key provided")])]
                   _ _ _ _ _ _)
            [("message", JStr "Incorrect API key provided")]
            "Incorrect API key provided" _ _ _);
    try reflexivity; [repeat constructor | discriminate].
Defined.

(** * Mounting the page and deleting a key *)

(** X27.  On mount, a single key of the first revision that is not among the
    stored keys is moved to the front of the stored list and its own item is
    removed; the list of the state is the stored one, and the key is put in
    the form when the form has none. *)
Theorem mount_migrates (st : Home.State) (keys : list StoredApiKey.t) (old : string)
    (now now' : Number) :
  storable keys ->
  finite now' = true ->
  old <> "" ->
  has_key old keys = false ->
  exists st',
    Home.mount st (holding keys (Some old)) now now'
    = Normal (st', holding (new_key old now now' :: keys) None)
    /\ Home.storedApiKeys st' = keys_toJS (new_key old now now' :: keys)
    /\ Home.apiKey (Home.formData st')
       = (if Home.apiKey (Home.formData st) =? "" then old
          else Home.apiKey (Home.formData st))%string.
Proof.
  intros Hkeys Hnow Hold Hnew. unfold Home.mount.
  rewrite (getStoredApiKeys_holding keys (Some old) Hkeys).
  cbn [Completion_bind holding Browser.api_key_item].
  apply String.eqb_neq in Hold. rewrite Hold.
  unfold keys_toJS at 1. cbn [Browser.call_some]. rewrite some_key_is, Hnew.
  cbn [Completion_bind]. fold (holding keys (Some old)).
  rewrite (addApiKey_holding keys (Some old) old now now' Hkeys), Hnew.
  cbn [Completion_bind].
  assert (Hkeys' : storable (new_key old now now' :: keys)) by (constructor; assumption).
  rewrite (getStoredApiKeys_holding _ (Some old) Hkeys').
  cbn [Completion_bind holding Browser.api_keys_item Home.setStoredApiKeys Home.formData].
  eexists. split; [reflexivity |].
  destruct (Home.apiKey (Home.formData st) =? "")%string; split; reflexivity.
Qed.

Lemma mount_migrates_witness :
  exists st',
    Home.mount Home.initial (holding two_keys (Some "sk-old")) (num "1756800000000")
      (num "1756800000001")
    = Normal (st', holding (new_key "sk-old" (num "1756800000000") (num "1756800000001")
                              :: two_keys) None)
    /\ Home.storedApiKeys st'
       = keys_toJS (new_key "sk-old" (num "1756800000000") (num "1756800000001")
                      :: two_keys)
    /\ Home.apiKey (Home.formData st') = "sk-old".
Proof.
  apply (mount_migrates Home.initial two_keys "sk-old" (num "1756800000000")
           (num "1756800000001"));
    [repeat constructor | reflexivity | discriminate | reflexivity].
Defined.

(** X28.  On mount, a single key of the first revision that is among the
    stored keys already is left in its item, and so is the storage; the form
    is not touched. *)
Theorem mount_keeps_stored_key (st : Home.State) (keys : list StoredApiKey.t)
    (old : string) (now now' : Number) :
  storable keys ->
  has_key old keys = true ->
  Home.mount st (holding keys (Some old)) now now'
  = Normal (Home.setStoredApiKeys st (keys_toJS keys), holding keys (Some old)).
Proof.
  intros Hkeys Hhas. unfold Home.mount.
  rewrite (getStoredApiKeys_holding keys (Some old) Hkeys).
  cbn [Completion_bind holding Browser.api_key_item].
  destruct (old =? "")%string; [reflexivity |].
  unfold keys_toJS at 1. cbn [Browser.call_some]. rewrite some_key_is, Hhas.
  reflexivity.
Qed.

Lemma mount_keeps_stored_key_witness :
  Home.mount Home.initial (holding two_keys (Some "sk-a")) (num "1756800000000")
    (num "1756800000001")
  = Normal (Home.setStoredApiKeys Home.initial (keys_toJS two_keys),
            holding two_keys (Some "sk-a")).
Proof.
  apply (mount_keeps_stored_key Home.initial two_keys "sk-a" (num "1756800000000")
           (num "1756800000001")); [repeat constructor | reflexivity].
Defined.

(** X29.  [handleDeleteApiKey] removes the keys of the given id from the
    storage and from the list of the state, and empties the key of the form
    unless that key is among the keys that are left: a key that was typed
    and never stored is lost when any stored key is deleted. *)
Theorem handleDeleteApiKey_outcome (st : Home.State) (keys : list StoredApiKey.t)
    (old : option string) (id : string) :
  storable keys ->
  exists st',
    Home.handleDeleteApiKey st (holding keys old) id
    = Normal (st', holding (without_id id keys) old)
    /\ Home.storedApiKeys st' = keys_toJS (without_id id keys)
    /\ Home.apiKey (Home.formData st')
       = (if has_key (Home.apiKey (Home.formData st)) (without_id id keys)
          then Home.apiKey (Home.formData st) else "")
    /\ (has_key (Home.apiKey (Home.formData st)) keys = false ->
        Home.apiKey (Home.formData st') = "").
Proof.
  intros Hkeys. unfold Home.handleDeleteApiKey.
  rewrite (deleteApiKey_holding keys old id Hkeys). cbn [Completion_bind].
  rewrite (getStoredApiKeys_holding _ old (storable_without_id id keys Hkeys)).
  cbn [Completion_bind]. unfold keys_toJS at 1. cbn [Browser.call_some].
  rewrite some_key_is. cbn [Completion_bind].
  assert (Hleft : has_key (Home.apiKey (Home.formData st)) keys = false ->
                  has_key (Home.apiKey (Home.formData st)) (without_id id keys) = false).
  { unfold has_key, without_id. intros Hnone.
    destruct (existsb _ (List.filter _ _)) eqn:Hsome; [| reflexivity].
    apply existsb_exists in Hsome. destruct Hsome as (k & Hin & Hk).
    apply filter_In in Hin. rewrite <- Hnone. symmetry. apply existsb_exists.
    exists k. tauto. }
  eexists. split; [reflexivity |].
  destruct (has_key (Home.apiKey (Home.formData st)) (without_id id keys)) eqn:Hhas;
    cbn [Home.setStoredApiKeys Home.setFormData Home.with_apiKey Home.storedApiKeys
           Home.formData Home.apiKey];
    repeat split; try reflexivity.
  intros Hnone. apply Hleft in Hnone. congruence.
Qed.

Lemma handleDeleteApiKey_outcome_witness :
  exists st',
    Home.handleDeleteApiKey filled (holding two_keys None) "1756600000000"
    = Normal (st', holding (without_id "1756600000000" two_keys) None)
    /\ Home.storedApiKeys st' = keys_toJS (without_id "1756600000000" two_keys)
    /\ Home.apiKey (Home.formData st')
       = (if has_key " sk-c " (without_id "1756600000000" two_keys)
          then " sk-c " else "")
    /\ (has_key " sk-c " two_keys = false -> Home.apiKey (Home.formData st') = "").
Proof.
  apply (handleDeleteApiKey_outcome filled two_keys None "1756600000000").
  repeat constructor.
Defined.

(** X30.  After [handleReset] the form cannot be submitted, whatever it held:
    its key is empty, so [isFormValid] fails.  The stored keys and the
    loading state are as they were. *)
Theorem handleReset_invalidates_form (st : Home.State) :
  Home.isFormValid (Home.handleReset st) = false
  /\ Home.storedApiKeys (Home.handleReset st) = Home.storedApiKeys st
  /\ Home.isLoading (Home.handleReset st) = Home.isLoading st.
Proof. repeat split. Qed.
